(** * Preset pass managers: configuration resolution and level dispatch

    A shallow embedding of [qiskit/transpiler/preset_passmanagers/__init__.py]
    ([generate_preset_pass_manager]) and of the mock device records
    [fake_london.py] and [fake_montreal.py].

    Python's [None] is [None : option _]; a call that may raise runs in a
    monad with exceptions.  The program is written once, over any such
    monad, and read twice: in [outcome] (a value or the exception raised),
    where it computes, and in [Rel] (the set of outcomes a run may have),
    where collaborators need not be functions.

    The descriptors, [PassManagerConfig.from_backend] and the level
    builders are collaborators defined elsewhere; they are parameters of the
    program.  What the call returns is stated for collaborators that
    answer, and what it raises is traced to the collaborator that raised
    it. *)

From Stdlib Require Import ZArith QArith Ascii String List Bool.
From Stdlib Require Import DecimalString DecimalZ.
From ExtLib Require Import Structures.Monad Structures.MonadExc.
From ExtLib Require Import Data.Monads.EitherMonad.
Import ListNotations.
Import MonadNotation.
Local Open Scope monad_scope.
Local Open Scope string_scope.

Set Implicit Arguments.

(** ** Python values *)

(** A raised exception: its class and its message. *)
Record exception : Type := Exception { exc_class : string; exc_msg : string }.

(** [ValueError(msg)]. *)
Definition ValueError (msg : string) : exception :=
  {| exc_class := "ValueError"; exc_msg := msg |}.

(** [str(n)] (and the [{n}] of an f-string) for an [int]: decimal digits, a
    leading [-] for a negative number. *)
Definition py_str (n : Z) : string := NilZero.string_of_int (Z.to_int n).

(** The outcome of a call: [inr v] when it returns [v], [inl e] when it
    raises [e]. *)
Definition outcome (A : Type) : Type := (exception + A)%type.
Abbreviation Returns v := (inr v).
Abbreviation Raises e := (inl e).

#[global] Instance Monad_outcome : Monad outcome := Monad_either exception.

#[global] Instance Exception_outcome : MonadExc exception outcome :=
  Exception_either exception.

(** ** The data model *)

(** The classes the function handles without looking inside: it only ever
    tests such a value against [None] and hands it on. *)
Class Domain : Type := {
  Target : Type;
  Backend : Type;
  CouplingMap : Type;
  InstructionDurations : Type;
  InstructionScheduleMap : Type;
  TimingConstraints : Type;
  BackendProperties : Type;
  Layout : Type;
  ApproximationDegree : Type;
  PluginConfig : Type;
  PassManager : Type
}.

(** Modelled from the spec: the class [PassManagerConfig]
    (qiskit/transpiler/passmanager_config.py, not among the sources), a
    record that holds the sixteen keyword arguments it is built from, each
    stored as given. *)
Record PassManagerConfig {D : Domain} : Type := {
  target : option Target;
  basis_gates : option (list string);
  inst_map : option InstructionScheduleMap;
  coupling_map : option CouplingMap;
  instruction_durations : option InstructionDurations;
  backend_properties : option BackendProperties;
  timing_constraints : option TimingConstraints;
  layout_method : option string;
  routing_method : option string;
  translation_method : option string;
  scheduling_method : option string;
  approximation_degree : option ApproximationDegree;
  seed_transpiler : option Z;
  unitary_synthesis_method : string;
  unitary_synthesis_plugin_config : option PluginConfig;
  initial_layout : option Layout
}.
Arguments PassManagerConfig {D}.

(** The parameters of [generate_preset_pass_manager], under their names. *)
Module Args.
Record t {D : Domain} : Type := make {
  optimization_level : Z;
  backend : option Backend;
  target : option Target;
  basis_gates : option (list string);
  inst_map : option InstructionScheduleMap;
  coupling_map : option CouplingMap;
  instruction_durations : option InstructionDurations;
  backend_properties : option BackendProperties;
  timing_constraints : option TimingConstraints;
  initial_layout : option Layout;
  layout_method : option string;
  routing_method : option string;
  translation_method : option string;
  scheduling_method : option string;
  approximation_degree : option ApproximationDegree;
  seed_transpiler : option Z;
  unitary_synthesis_method : string;
  unitary_synthesis_plugin_config : option PluginConfig
}.
Arguments t {D}.
Arguments make {D} & _ _ _ _ _ _ _ _ _ _ _ _ _ _ _ _ _ _.

(** A call that passes [optimization_level] only: every other parameter at
    its default. *)
Definition defaults {D : Domain} (level : Z) : t :=
  {| optimization_level := level;
     backend := None; target := None; basis_gates := None; inst_map := None;
     coupling_map := None; instruction_durations := None;
     backend_properties := None; timing_constraints := None;
     initial_layout := None; layout_method := None; routing_method := None;
     translation_method := None; scheduling_method := None;
     approximation_degree := None; seed_transpiler := None;
     unitary_synthesis_method := "default";
     unitary_synthesis_plugin_config := None |}.
End Args.

(** ** Collaborators

    The methods of [Target] the function calls, [target_to_backend_properties],
    the four level builders and [PassManagerConfig.from_backend] are defined
    outside the module.  Each is a call that returns or raises, in the monad
    [M] of the caller. *)

Record TargetAccessors {D : Domain} (M : Type -> Type) : Type := {
  target_build_coupling_map : Target -> M (option CouplingMap);
  target_operation_names : Target -> M (option (list string));
  target_durations : Target -> M (option InstructionDurations);
  target_instruction_schedule_map : Target -> M (option InstructionScheduleMap);
  target_timing_constraints : Target -> M (option TimingConstraints);
  target_to_backend_properties : Target -> M (option BackendProperties)
}.

Record LevelBuilders {D : Domain} (M : Type -> Type) : Type := {
  level_0_pass_manager : PassManagerConfig -> M PassManager;
  level_1_pass_manager : PassManagerConfig -> M PassManager;
  level_2_pass_manager : PassManagerConfig -> M PassManager;
  level_3_pass_manager : PassManagerConfig -> M PassManager
}.

(** ** The program *)

Section Program.
Context {D : Domain} {M : Type -> Type}.
Context {Monad_M : Monad M} {Exc_M : MonadExc exception M}.

Variable T : TargetAccessors M.
Variable from_backend : Backend -> PassManagerConfig -> M PassManagerConfig.
Variable L : LevelBuilders M.

(** [if x is None: x = call()] as an expression: the new value of [x]. *)
Definition if_none {A : Type} (x : option A) (call : M (option A)) : M (option A) :=
  match x with
  | Some _ => ret x
  | None => call
  end.

(** Lines 144-156: the six parameters a target can supply, each filled from
    the target when it was passed as [None], in the order of the source. *)
Definition fill_from_target (a : Args.t) : M Args.t :=
  match Args.target a with
  | Some tgt =>
      coupling_map' <- if_none (Args.coupling_map a) (target_build_coupling_map T tgt) ;;
      basis_gates' <- if_none (Args.basis_gates a) (target_operation_names T tgt) ;;
      instruction_durations' <-
        if_none (Args.instruction_durations a) (target_durations T tgt) ;;
      inst_map' <- if_none (Args.inst_map a) (target_instruction_schedule_map T tgt) ;;
      timing_constraints' <-
        if_none (Args.timing_constraints a) (target_timing_constraints T tgt) ;;
      backend_properties' <-
        if_none (Args.backend_properties a) (target_to_backend_properties T tgt) ;;
      ret {| Args.optimization_level := Args.optimization_level a;
             Args.backend := Args.backend a;
             Args.target := Args.target a;
             Args.basis_gates := basis_gates';
             Args.inst_map := inst_map';
             Args.coupling_map := coupling_map';
             Args.instruction_durations := instruction_durations';
             Args.backend_properties := backend_properties';
             Args.timing_constraints := timing_constraints';
             Args.initial_layout := Args.initial_layout a;
             Args.layout_method := Args.layout_method a;
             Args.routing_method := Args.routing_method a;
             Args.translation_method := Args.translation_method a;
             Args.scheduling_method := Args.scheduling_method a;
             Args.approximation_degree := Args.approximation_degree a;
             Args.seed_transpiler := Args.seed_transpiler a;
             Args.unitary_synthesis_method := Args.unitary_synthesis_method a;
             Args.unitary_synthesis_plugin_config :=
               Args.unitary_synthesis_plugin_config a |}
  | None => ret a
  end.

(** Lines 158-175: [pm_options = dict(...)], the keyword arguments of the
    configuration, read from the local variables. *)
Definition pm_options (a : Args.t) : PassManagerConfig :=
  {| target := Args.target a;
     basis_gates := Args.basis_gates a;
     inst_map := Args.inst_map a;
     coupling_map := Args.coupling_map a;
     instruction_durations := Args.instruction_durations a;
     backend_properties := Args.backend_properties a;
     timing_constraints := Args.timing_constraints a;
     layout_method := Args.layout_method a;
     routing_method := Args.routing_method a;
     translation_method := Args.translation_method a;
     scheduling_method := Args.scheduling_method a;
     approximation_degree := Args.approximation_degree a;
     seed_transpiler := Args.seed_transpiler a;
     unitary_synthesis_method := Args.unitary_synthesis_method a;
     unitary_synthesis_plugin_config := Args.unitary_synthesis_plugin_config a;
     initial_layout := Args.initial_layout a |}.

(** Lines 177-180: the configuration, through [from_backend] when a backend
    was passed and through the constructor otherwise. *)
Definition build_config (a : Args.t) : M PassManagerConfig :=
  match Args.backend a with
  | Some b => from_backend b (pm_options a)
  | None => ret (pm_options a)
  end.

(** Lines 144-180, the configuration resolution: [pm_config]. *)
Definition resolve_config (a : Args.t) : M PassManagerConfig :=
  a' <- fill_from_target a ;;
  build_config a'.

(** Lines 182-192, the dispatch on [optimization_level]. *)
Definition dispatch (optimization_level : Z) (pm_config : PassManagerConfig)
  : M PassManager :=
  if (optimization_level =? 0)%Z then level_0_pass_manager L pm_config
  else if (optimization_level =? 1)%Z then level_1_pass_manager L pm_config
  else if (optimization_level =? 2)%Z then level_2_pass_manager L pm_config
  else if (optimization_level =? 3)%Z then level_3_pass_manager L pm_config
  else raise (ValueError ("Invalid optimization level " ++ py_str optimization_level)).

Definition generate_preset_pass_manager (a : Args.t) : M PassManager :=
  pm_config <- resolve_config a ;;
  dispatch (Args.optimization_level a) pm_config.

End Program.

(** ** Configuration from a backend *)

(** What a backend descriptor is asked for: the six derivable fields. *)
Record BackendAccessors {D : Domain} (M : Type -> Type) : Type := {
  backend_connectivity : Backend -> M (option CouplingMap);
  backend_basis_gate_set : Backend -> M (option (list string));
  backend_duration_table : Backend -> M (option InstructionDurations);
  backend_calibration_map : Backend -> M (option InstructionScheduleMap);
  backend_timing : Backend -> M (option TimingConstraints);
  backend_property_table : Backend -> M (option BackendProperties)
}.

Section FromBackend.
Context {D : Domain} {M : Type -> Type} {Monad_M : Monad M}.
Variable B : BackendAccessors M.

(** Modelled from the spec: [PassManagerConfig.from_backend]
    (qiskit/transpiler/passmanager_config.py, not among the sources).  The
    configuration is first built from the keyword arguments; then each of the
    six derived fields that is still absent, and only those, is derived from
    the backend.  Every other field is kept. *)
Definition from_backend_model (b : Backend) (opts : PassManagerConfig)
  : M PassManagerConfig :=
  coupling_map' <- if_none (coupling_map opts) (backend_connectivity B b) ;;
  basis_gates' <- if_none (basis_gates opts) (backend_basis_gate_set B b) ;;
  instruction_durations' <-
    if_none (instruction_durations opts) (backend_duration_table B b) ;;
  inst_map' <- if_none (inst_map opts) (backend_calibration_map B b) ;;
  timing_constraints' <- if_none (timing_constraints opts) (backend_timing B b) ;;
  backend_properties' <-
    if_none (backend_properties opts) (backend_property_table B b) ;;
  ret {| target := target opts;
         basis_gates := basis_gates';
         inst_map := inst_map';
         coupling_map := coupling_map';
         instruction_durations := instruction_durations';
         backend_properties := backend_properties';
         timing_constraints := timing_constraints';
         layout_method := layout_method opts;
         routing_method := routing_method opts;
         translation_method := translation_method opts;
         scheduling_method := scheduling_method opts;
         approximation_degree := approximation_degree opts;
         seed_transpiler := seed_transpiler opts;
         unitary_synthesis_method := unitary_synthesis_method opts;
         unitary_synthesis_plugin_config := unitary_synthesis_plugin_config opts;
         initial_layout := initial_layout opts |}.

End FromBackend.

(** ** Runs as relations

    [Rel A] is the set of outcomes a call may have.  A collaborator that is
    a relation may answer differently from one call to the next; one that is
    [functional] has a single outcome. *)

Definition Rel (A : Type) : Type := outcome A -> Prop.

#[global] Instance Monad_Rel : Monad Rel := {
  ret := fun _ a o => o = Returns a;
  bind := fun _ _ m k o =>
    (exists a, m (Returns a) /\ k a o) \/ (exists e, m (Raises e) /\ o = Raises e)
}.

#[global] Instance Exception_Rel : MonadExc exception Rel := {
  raise := fun _ e o => o = Raises e;
  catch := fun _ m h o =>
    (exists a, m (Returns a) /\ o = Returns a) \/ (exists e, m (Raises e) /\ h e o)
}.

(** At most one outcome. *)
Definition functional {A : Type} (r : Rel A) : Prop :=
  forall o1 o2, r o1 -> r o2 -> o1 = o2.

(** The run whose only outcome is [x]. *)
Definition graph {A : Type} (x : outcome A) : Rel A := fun o => o = x.

(** [r] has the outcome [x] and no other. *)
Definition runs_to {A : Type} (r : Rel A) (x : outcome A) : Prop :=
  forall o, r o <-> o = x.

Section Graphs.
Context {D : Domain}.

Definition graph_accessors (T : TargetAccessors outcome) : TargetAccessors Rel :=
  {| target_build_coupling_map := fun t => graph (target_build_coupling_map T t);
     target_operation_names := fun t => graph (target_operation_names T t);
     target_durations := fun t => graph (target_durations T t);
     target_instruction_schedule_map :=
       fun t => graph (target_instruction_schedule_map T t);
     target_timing_constraints := fun t => graph (target_timing_constraints T t);
     target_to_backend_properties :=
       fun t => graph (target_to_backend_properties T t) |}.

Definition graph_builders (L : LevelBuilders outcome) : LevelBuilders Rel :=
  {| level_0_pass_manager := fun c => graph (level_0_pass_manager L c);
     level_1_pass_manager := fun c => graph (level_1_pass_manager L c);
     level_2_pass_manager := fun c => graph (level_2_pass_manager L c);
     level_3_pass_manager := fun c => graph (level_3_pass_manager L c) |}.

(** Every accessor of the target has a single outcome. *)
Definition functional_accessors (T : TargetAccessors Rel) : Prop :=
  (forall t, functional (target_build_coupling_map T t)) /\
  (forall t, functional (target_operation_names T t)) /\
  (forall t, functional (target_durations T t)) /\
  (forall t, functional (target_instruction_schedule_map T t)) /\
  (forall t, functional (target_timing_constraints T t)) /\
  (forall t, functional (target_to_backend_properties T t)).

(** Every builder has a single outcome on a given configuration. *)
Definition functional_builders (L : LevelBuilders Rel) : Prop :=
  (forall c, functional (level_0_pass_manager L c)) /\
  (forall c, functional (level_1_pass_manager L c)) /\
  (forall c, functional (level_2_pass_manager L c)) /\
  (forall c, functional (level_3_pass_manager L c)).

End Graphs.

(** ** Reading the program in [outcome] *)

Section Contracts.
Context {D : Domain}.

(** The call returns (it does not raise). *)
Definition returns {A : Type} (x : outcome A) : Prop := exists v, x = Returns v.

(** The accessors the function may call on the target it was given return. *)
Definition target_answers (T : TargetAccessors outcome) (a : Args.t) : Prop :=
  match Args.target a with
  | None => True
  | Some t =>
      returns (target_build_coupling_map T t) /\
      returns (target_operation_names T t) /\
      returns (target_durations T t) /\
      returns (target_instruction_schedule_map T t) /\
      returns (target_timing_constraints T t) /\
      returns (target_to_backend_properties T t)
  end.

(** The accessors of the backend it was given return. *)
Definition backend_answers (B : BackendAccessors outcome) (a : Args.t) : Prop :=
  match Args.backend a with
  | None => True
  | Some b =>
      returns (backend_connectivity B b) /\
      returns (backend_basis_gate_set B b) /\
      returns (backend_duration_table B b) /\
      returns (backend_calibration_map B b) /\
      returns (backend_timing B b) /\
      returns (backend_property_table B b)
  end.

(** [e] was raised by one of the six accessors of the target [t]. *)
Definition raised_by_target (T : TargetAccessors outcome) (t : Target)
  (e : exception) : Prop :=
  target_build_coupling_map T t = Raises e \/
  target_operation_names T t = Raises e \/
  target_durations T t = Raises e \/
  target_instruction_schedule_map T t = Raises e \/
  target_timing_constraints T t = Raises e \/
  target_to_backend_properties T t = Raises e.

(** None of the six derivable parameters was passed. *)
Definition no_overrides (a : Args.t) : Prop :=
  Args.coupling_map a = None /\
  Args.basis_gates a = None /\
  Args.instruction_durations a = None /\
  Args.inst_map a = None /\
  Args.timing_constraints a = None /\
  Args.backend_properties a = None.

(** All six derivable parameters were passed. *)
Definition all_overrides (a : Args.t) : Prop :=
  Args.coupling_map a <> None /\
  Args.basis_gates a <> None /\
  Args.instruction_durations a <> None /\
  Args.inst_map a <> None /\
  Args.timing_constraints a <> None /\
  Args.backend_properties a <> None.

(** The nine fields no descriptor can supply are those of the call. *)
Definition passes_through (a : Args.t) (cfg : PassManagerConfig) : Prop :=
  layout_method cfg = Args.layout_method a /\
  routing_method cfg = Args.routing_method a /\
  translation_method cfg = Args.translation_method a /\
  scheduling_method cfg = Args.scheduling_method a /\
  unitary_synthesis_method cfg = Args.unitary_synthesis_method a /\
  approximation_degree cfg = Args.approximation_degree a /\
  seed_transpiler cfg = Args.seed_transpiler a /\
  initial_layout cfg = Args.initial_layout a /\
  unitary_synthesis_plugin_config cfg = Args.unitary_synthesis_plugin_config a.

(** The value of a derived field when both descriptors answered: the
    target's value [tv] unless it is absent, and then the backend's [bv]. *)
Definition target_then_backend {A : Type} (tv : outcome (option A))
  (bv : outcome (option A)) (field : option A) : Prop :=
  exists v, tv = Returns v /\
    match v with
    | Some _ => field = v
    | None => bv = Returns field
    end.

(** The dispatcher in the words of the specification: a table from the four
    levels to the four builders, looked up directly. *)
Definition builder_for {M : Type -> Type} (L : LevelBuilders M) (level : Z)
  : option (PassManagerConfig -> M PassManager) :=
  match level with
  | 0%Z => Some (level_0_pass_manager L)
  | 1%Z => Some (level_1_pass_manager L)
  | 2%Z => Some (level_2_pass_manager L)
  | 3%Z => Some (level_3_pass_manager L)
  | _ => None
  end.

(** The exception of line 191. *)
Definition InvalidLevel (level : Z) : exception :=
  ValueError ("Invalid optimization level " ++ py_str level).

(** The same call with another [optimization_level]. *)
Definition with_level (level : Z) (a : Args.t) : Args.t :=
  {| Args.optimization_level := level;
     Args.backend := Args.backend a;
     Args.target := Args.target a;
     Args.basis_gates := Args.basis_gates a;
     Args.inst_map := Args.inst_map a;
     Args.coupling_map := Args.coupling_map a;
     Args.instruction_durations := Args.instruction_durations a;
     Args.backend_properties := Args.backend_properties a;
     Args.timing_constraints := Args.timing_constraints a;
     Args.initial_layout := Args.initial_layout a;
     Args.layout_method := Args.layout_method a;
     Args.routing_method := Args.routing_method a;
     Args.translation_method := Args.translation_method a;
     Args.scheduling_method := Args.scheduling_method a;
     Args.approximation_degree := Args.approximation_degree a;
     Args.seed_transpiler := Args.seed_transpiler a;
     Args.unitary_synthesis_method := Args.unitary_synthesis_method a;
     Args.unitary_synthesis_plugin_config :=
       Args.unitary_synthesis_plugin_config a |}.

End Contracts.

(** ** The mock devices

    [fake_london.py] and [fake_montreal.py]: each module declares two
    classes, which differ in their base class and carry class attributes
    that name the directory and the data files of the device. *)

Module Mock.

(** [os.path.dirname] on POSIX paths: the part before the last slash, its
    trailing slashes removed unless it is made of slashes only. *)
Definition is_slash (c : Ascii.ascii) : bool := Ascii.eqb c "/"%char.

Fixpoint has_slash (p : string) : bool :=
  match p with
  | EmptyString => false
  | String c rest => is_slash c || has_slash rest
  end.

Fixpoint all_slashes (p : string) : bool :=
  match p with
  | EmptyString => true
  | String c rest => is_slash c && all_slashes rest
  end.

(** [p[:p.rfind('/') + 1]]. *)
Fixpoint upto_last_slash (p : string) : string :=
  match p with
  | EmptyString => EmptyString
  | String c rest =>
      if has_slash rest then String c (upto_last_slash rest)
      else if is_slash c then String c EmptyString
      else EmptyString
  end.

(** [head.rstrip('/')]. *)
Fixpoint rstrip_slashes (p : string) : string :=
  match p with
  | EmptyString => EmptyString
  | String c rest => if all_slashes p then EmptyString else String c (rstrip_slashes rest)
  end.

Definition os_path_dirname (p : string) : string :=
  let head := upto_last_slash p in
  if all_slashes head then head else rstrip_slashes head.

(** The base classes of the mock backends. *)
Inductive base_class : Type :=
| FakeBackendV2
| FakePulseBackend
| FakeQasmBackend.

(** A mock backend class: its base and the class attributes of its body.
    [defs_filename] is [None] for a class that does not set it. *)
Record fake_backend : Type := {
  base : base_class;
  dirname : string;
  conf_filename : string;
  props_filename : string;
  defs_filename : option string;
  backend_name : string
}.

(** fake_london.py; [file] is the module's [__file__]. *)
Definition FakeLondonV2 (file : string) : fake_backend :=
  {| base := FakeBackendV2;
     dirname := os_path_dirname file;
     conf_filename := "conf_london.json";
     props_filename := "props_london.json";
     defs_filename := None;
     backend_name := "fake_london_v2" |}.

Definition FakeLondon (file : string) : fake_backend :=
  {| base := FakeQasmBackend;
     dirname := os_path_dirname file;
     conf_filename := "conf_london.json";
     props_filename := "props_london.json";
     defs_filename := None;
     backend_name := "fake_london" |}.

(** fake_montreal.py. *)
Definition FakeMontrealV2 (file : string) : fake_backend :=
  {| base := FakeBackendV2;
     dirname := os_path_dirname file;
     conf_filename := "conf_montreal.json";
     props_filename := "props_montreal.json";
     defs_filename := Some "defs_montreal.json";
     backend_name := "fake_montreal_v2" |}.

Definition FakeMontreal (file : string) : fake_backend :=
  {| base := FakePulseBackend;
     dirname := os_path_dirname file;
     conf_filename := "conf_montreal.json";
     props_filename := "props_montreal.json";
     defs_filename := Some "defs_montreal.json";
     backend_name := "fake_montreal" |}.




Definition london_file : string :=
  "qiskit/test/mock/backends/london/fake_london.py".

Definition montreal_file : string :=
  "qiskit/test/mock/backends/montreal/fake_montreal.py".

End Mock.

(** ** Sample collaborators

    Concrete descriptors and builders on which the program runs: a
    descriptor is given by what its six accessors answer, a pipeline is the
    list of the names of its stages. *)

Module Sample.

Record descriptor : Type := {
  connectivity : outcome (option (list (nat * nat)));
  operation_names : outcome (option (list string));
  durations : outcome (option (list (string * nat)));
  schedule_map : outcome (option (list string));
  timing : outcome (option nat);
  properties : outcome (option (list (nat * nat)))
}.

Definition domain : Domain :=
  {| Target := descriptor;
     Backend := descriptor;
     CouplingMap := list (nat * nat);
     InstructionDurations := list (string * nat);
     InstructionScheduleMap := list string;
     TimingConstraints := nat;
     BackendProperties := list (nat * nat);
     Layout := list nat;
     ApproximationDegree := Q;
     PluginConfig := list (string * string);
     PassManager := list string |}.

Definition accessors : @TargetAccessors domain outcome :=
  @Build_TargetAccessors domain outcome
    connectivity operation_names durations schedule_map timing properties.

Definition backend_accessors : @BackendAccessors domain outcome :=
  @Build_BackendAccessors domain outcome
    connectivity operation_names durations schedule_map timing properties.

Definition UnsupportedMethod (selector value : string) : exception :=
  {| exc_class := "UnsupportedMethod"; exc_msg := selector ++ "=" ++ value |}.

Definition UnresolvedRequirement (field : string) : exception :=
  {| exc_class := "UnresolvedRequirement"; exc_msg := field |}.

(** A selector is accepted when absent or among the recognized values. *)
Definition check_selector (selector : string) (recognized : list string)
  (value : option string) : outcome unit :=
  match value with
  | None => Returns tt
  | Some s =>
      if existsb (String.eqb s) recognized then Returns tt
      else Raises (UnsupportedMethod selector s)
  end.

(** Modelled from the spec: a level builder ([level0.py] to [level3.py] are
    not among the sources).  It rejects a method selector outside its
    enumeration, and a routing request without a connectivity graph; else it
    returns the stages in the canonical order, the optimization stage
    repeated [level] times and the scheduling stage present when a
    scheduling method was asked for, and at level 3 also when a calibration
    schedule map is available. *)
Definition level_pass_manager (level : nat) (cfg : @PassManagerConfig domain)
  : outcome (list string) :=
  check_selector "layout_method" ["trivial"; "dense"; "noise_adaptive"; "sabre"]
    (layout_method cfg) ;;
  check_selector "routing_method" ["basic"; "lookahead"; "stochastic"; "sabre"; "none"]
    (routing_method cfg) ;;
  check_selector "translation_method" ["unroller"; "translator"; "synthesis"]
    (translation_method cfg) ;;
  check_selector "scheduling_method" ["alap"; "asap"] (scheduling_method cfg) ;;
  match routing_method cfg, coupling_map cfg with
  | Some _, None => Raises (UnresolvedRequirement "coupling_map")
  | _, _ =>
      Returns (["layout"; "routing"; "translation"] ++ repeat "optimization" level ++
               match scheduling_method cfg, inst_map cfg with
               | Some _, _ => ["scheduling"]
               | None, Some _ => if Nat.eqb level 3 then ["scheduling"] else []
               | None, None => []
               end)%list
  end.

Definition builders : @LevelBuilders domain outcome :=
  @Build_LevelBuilders domain outcome
    (level_pass_manager 0) (level_pass_manager 1)
    (level_pass_manager 2) (level_pass_manager 3).

(** A five-qubit target with the topology drawn in fake_london.py
    (0-1, 1-2, 1-3, 3-4, both directions); it has no calibration and no
    property table. *)
Definition five_qubit_target : descriptor :=
  {| connectivity :=
       Returns (Some [(0, 1); (1, 0); (1, 2); (2, 1); (1, 3); (3, 1); (3, 4); (4, 3)]%nat);
     operation_names := Returns (Some ["id"; "rz"; "sx"; "x"; "cx"; "measure"]);
     durations := Returns (Some [("sx", 160%nat); ("cx", 1408%nat)]);
     schedule_map := Returns None;
     timing := Returns (Some 16%nat);
     properties := Returns None |}.

(** A legacy backend for the same device, whose every answer differs. *)
Definition five_qubit_backend : descriptor :=
  {| connectivity := Returns (Some [(0, 1); (1, 2); (1, 3); (3, 4)]%nat);
     operation_names := Returns (Some ["u1"; "u2"; "u3"; "cx"]);
     durations := Returns (Some [("u3", 320%nat)]);
     schedule_map := Returns (Some ["u3"; "cx"]);
     timing := Returns (Some 8%nat);
     properties := Returns (Some [(0, 71); (1, 64)]%nat) |}.

(** A descriptor whose first accessor raises, as an object does that has
    no [build_coupling_map]: a backend passed in the place of a target. *)
Definition failing_descriptor : descriptor :=
  {| connectivity :=
       Raises {| exc_class := "AttributeError"; exc_msg := "build_coupling_map" |};
     operation_names := Returns None;
     durations := Returns None;
     schedule_map := Returns None;
     timing := Returns None;
     properties := Returns None |}.

(** [generate_preset_pass_manager(level, backend=backend,
    target=five_qubit_target, basis_gates=["u3", "cx"],
    routing_method="sabre", seed_transpiler=42)]. *)
Definition call_with_basis (level : Z) (backend : option descriptor)
  : @Args.t domain :=
  {| Args.optimization_level := level;
     Args.backend := backend;
     Args.target := Some five_qubit_target;
     Args.basis_gates := Some ["u3"; "cx"];
     Args.inst_map := None;
     Args.coupling_map := None;
     Args.instruction_durations := None;
     Args.backend_properties := None;
     Args.timing_constraints := None;
     Args.initial_layout := None;
     Args.layout_method := None;
     Args.routing_method := Some "sabre";
     Args.translation_method := None;
     Args.scheduling_method := None;
     Args.approximation_degree := None;
     Args.seed_transpiler := Some 42%Z;
     Args.unitary_synthesis_method := "default";
     Args.unitary_synthesis_plugin_config := None |}.

(** [generate_preset_pass_manager(level, backend=backend, target=target)]. *)
Definition call_with (level : Z) (backend target : option descriptor)
  : @Args.t domain :=
  {| Args.optimization_level := level;
     Args.backend := backend;
     Args.target := target;
     Args.basis_gates := None;
     Args.inst_map := None;
     Args.coupling_map := None;
     Args.instruction_durations := None;
     Args.backend_properties := None;
     Args.timing_constraints := None;
     Args.initial_layout := None;
     Args.layout_method := None;
     Args.routing_method := None;
     Args.translation_method := None;
     Args.scheduling_method := None;
     Args.approximation_degree := None;
     Args.seed_transpiler := None;
     Args.unitary_synthesis_method := "default";
     Args.unitary_synthesis_plugin_config := None |}.

(** The program on the sample collaborators. *)
Definition run (a : @Args.t domain) : outcome (list string) :=
  generate_preset_pass_manager accessors (from_backend_model backend_accessors)
    builders a.

Definition resolve (a : @Args.t domain) : outcome (@PassManagerConfig domain) :=
  resolve_config accessors (from_backend_model backend_accessors) a.

End Sample.

(** The value a derived parameter has after one descriptor was consulted:
    the value [x] it had when that was not [None], and else what the
    accessor [call] returned ([None] when there is no descriptor). *)
Definition filled {A : Type} (x : option A) (call : option (outcome (option A)))
  (r : option A) : Prop :=
  match x, call with
  | Some _, _ => r = x
  | None, None => r = None
  | None, Some c => c = Returns r
  end.

Section Shapes.
Context {D : Domain}.

(** The parameters no target can supply are the same in [a'] as in [a]. *)
Definition same_call_otherwise (a a' : Args.t) : Prop :=
  Args.optimization_level a' = Args.optimization_level a /\
  Args.backend a' = Args.backend a /\
  Args.target a' = Args.target a /\
  Args.initial_layout a' = Args.initial_layout a /\
  Args.layout_method a' = Args.layout_method a /\
  Args.routing_method a' = Args.routing_method a /\
  Args.translation_method a' = Args.translation_method a /\
  Args.scheduling_method a' = Args.scheduling_method a /\
  Args.approximation_degree a' = Args.approximation_degree a /\
  Args.seed_transpiler a' = Args.seed_transpiler a /\
  Args.unitary_synthesis_method a' = Args.unitary_synthesis_method a /\
  Args.unitary_synthesis_plugin_config a' = Args.unitary_synthesis_plugin_config a.

(** The six derivable parameters of [a'] are those of [a], each filled from
    the target of [a] when it was [None]. *)
Definition derived_from_target (T : TargetAccessors outcome) (a a' : Args.t) : Prop :=
  filled (Args.coupling_map a)
    (option_map (target_build_coupling_map T) (Args.target a)) (Args.coupling_map a') /\
  filled (Args.basis_gates a)
    (option_map (target_operation_names T) (Args.target a)) (Args.basis_gates a') /\
  filled (Args.instruction_durations a)
    (option_map (target_durations T) (Args.target a)) (Args.instruction_durations a') /\
  filled (Args.inst_map a)
    (option_map (target_instruction_schedule_map T) (Args.target a)) (Args.inst_map a') /\
  filled (Args.timing_constraints a)
    (option_map (target_timing_constraints T) (Args.target a))
    (Args.timing_constraints a') /\
  filled (Args.backend_properties a)
    (option_map (target_to_backend_properties T) (Args.target a))
    (Args.backend_properties a').

(** The fields no backend can supply are the same in [cfg] as in [opts]. *)
Definition same_config_otherwise (opts cfg : PassManagerConfig) : Prop :=
  target cfg = target opts /\
  layout_method cfg = layout_method opts /\
  routing_method cfg = routing_method opts /\
  translation_method cfg = translation_method opts /\
  scheduling_method cfg = scheduling_method opts /\
  approximation_degree cfg = approximation_degree opts /\
  seed_transpiler cfg = seed_transpiler opts /\
  unitary_synthesis_method cfg = unitary_synthesis_method opts /\
  unitary_synthesis_plugin_config cfg = unitary_synthesis_plugin_config opts /\
  initial_layout cfg = initial_layout opts.

(** The six derived fields of [cfg] are those of [opts], each filled from
    the backend [b] when it was [None]. *)
Definition derived_from_backend (B : BackendAccessors outcome) (b : Backend)
  (opts cfg : PassManagerConfig) : Prop :=
  filled (coupling_map opts) (Some (backend_connectivity B b)) (coupling_map cfg) /\
  filled (basis_gates opts) (Some (backend_basis_gate_set B b)) (basis_gates cfg) /\
  filled (instruction_durations opts) (Some (backend_duration_table B b))
    (instruction_durations cfg) /\
  filled (inst_map opts) (Some (backend_calibration_map B b)) (inst_map cfg) /\
  filled (timing_constraints opts) (Some (backend_timing B b))
    (timing_constraints cfg) /\
  filled (backend_properties opts) (Some (backend_property_table B b))
    (backend_properties cfg).

(** The accessors [T] and [T'] answer alike on the target of the call for
    every derivable parameter that was not passed. *)
Definition agree_where_absent (T T' : TargetAccessors outcome) (a : Args.t) : Prop :=
  match Args.target a with
  | None => True
  | Some t =>
      (Args.coupling_map a = None ->
       target_build_coupling_map T t = target_build_coupling_map T' t) /\
      (Args.basis_gates a = None ->
       target_operation_names T t = target_operation_names T' t) /\
      (Args.instruction_durations a = None ->
       target_durations T t = target_durations T' t) /\
      (Args.inst_map a = None ->
       target_instruction_schedule_map T t = target_instruction_schedule_map T' t) /\
      (Args.timing_constraints a = None ->
       target_timing_constraints T t = target_timing_constraints T' t) /\
      (Args.backend_properties a = None ->
       target_to_backend_properties T t = target_to_backend_properties T' t)
  end.

(** [e] was raised by one of the six accessors of the backend [b]. *)
Definition raised_by_backend (B : BackendAccessors outcome) (b : Backend)
  (e : exception) : Prop :=
  backend_connectivity B b = Raises e \/
  backend_basis_gate_set B b = Raises e \/
  backend_duration_table B b = Raises e \/
  backend_calibration_map B b = Raises e \/
  backend_timing B b = Raises e \/
  backend_property_table B b = Raises e.

End Shapes.

(** ** Runs with a log of the calls

    [Logged A] pairs the outcome of a run with the calls to collaborators
    it made, in the order it made them.  The program is the same; each
    collaborator records its own call before it answers. *)

Inductive call : Type :=
| CallBuildCouplingMap
| CallOperationNames
| CallDurations
| CallInstructionScheduleMap
| CallTimingConstraints
| CallToBackendProperties
| CallFromBackend
| CallLevelBuilder (level : Z).

Definition Logged (A : Type) : Type := (list call * outcome A)%type.

#[global] Instance Monad_Logged : Monad Logged := {
  ret := fun _ a => ([], Returns a);
  bind := fun _ _ m k =>
    match snd m with
    | inr a => ((fst m ++ fst (k a))%list, snd (k a))
    | inl e => (fst m, Raises e)
    end
}.

#[global] Instance Exception_Logged : MonadExc exception Logged := {
  raise := fun _ e => ([], Raises e);
  catch := fun _ m h =>
    match snd m with
    | inr a => m
    | inl e => ((fst m ++ fst (h e))%list, snd (h e))
    end
}.

(** A collaborator's call [ev] with the answer [x]. *)
Definition logging {A : Type} (ev : call) (x : outcome A) : Logged A := ([ev], x).

(** A list that keeps some of the elements of another, in their order. *)
Inductive subseq {A : Type} : list A -> list A -> Prop :=
| subseq_nil : subseq [] []
| subseq_take (x : A) (l1 l2 : list A) : subseq l1 l2 -> subseq (x :: l1) (x :: l2)
| subseq_skip (x : A) (l1 l2 : list A) : subseq l1 l2 -> subseq l1 (x :: l2).

(** The exception a guarded call [if x is None: x = call()] raises, if any. *)
Definition attempt {A : Type} (x : option A) (c : outcome (option A))
  : option exception :=
  match x, c with
  | None, inl e => Some e
  | _, _ => None
  end.

(** The first exception of a sequence of attempts. *)
Fixpoint first_raised (attempts : list (option exception)) : option exception :=
  match attempts with
  | [] => None
  | Some e :: _ => Some e
  | None :: rest => first_raised rest
  end.

(** The call recorded by a guarded call: none when [x] was passed. *)
Definition step_calls {A : Type} (x : option A) (ev : call) : list call :=
  match x with
  | Some _ => []
  | None => [ev]
  end.

Definition is_ok {A : Type} (x : outcome A) : bool :=
  match x with
  | inr _ => true
  | inl _ => false
  end.

(** The calls of a sequence of steps that stops after the first step that
    did not return. *)
Fixpoint log_until (steps : list (list call * bool)) : list call :=
  match steps with
  | [] => []
  | (l, ok) :: rest => (l ++ if ok then log_until rest else [])%list
  end.

Section Logs.
Context {D : Domain}.
Variable T : TargetAccessors outcome.
Variable from_backend : Backend -> PassManagerConfig -> outcome PassManagerConfig.
Variable L : LevelBuilders outcome.

Definition logged_accessors : TargetAccessors Logged :=
  {| target_build_coupling_map :=
       fun t => logging CallBuildCouplingMap (target_build_coupling_map T t);
     target_operation_names :=
       fun t => logging CallOperationNames (target_operation_names T t);
     target_durations := fun t => logging CallDurations (target_durations T t);
     target_instruction_schedule_map :=
       fun t => logging CallInstructionScheduleMap
                  (target_instruction_schedule_map T t);
     target_timing_constraints :=
       fun t => logging CallTimingConstraints (target_timing_constraints T t);
     target_to_backend_properties :=
       fun t => logging CallToBackendProperties (target_to_backend_properties T t) |}.

Definition logged_from_backend (b : Backend) (opts : PassManagerConfig)
  : Logged PassManagerConfig :=
  logging CallFromBackend (from_backend b opts).

Definition logged_builders : LevelBuilders Logged :=
  {| level_0_pass_manager :=
       fun c => logging (CallLevelBuilder 0) (level_0_pass_manager L c);
     level_1_pass_manager :=
       fun c => logging (CallLevelBuilder 1) (level_1_pass_manager L c);
     level_2_pass_manager :=
       fun c => logging (CallLevelBuilder 2) (level_2_pass_manager L c);
     level_3_pass_manager :=
       fun c => logging (CallLevelBuilder 3) (level_3_pass_manager L c) |}.

(** The run of the program that records the calls. *)
Definition logged_run (a : Args.t) : Logged PassManager :=
  generate_preset_pass_manager logged_accessors logged_from_backend
    logged_builders a.

(** The calls [generate_preset_pass_manager] makes, in order. *)
Definition calls (a : Args.t) : list call := fst (logged_run a).

(** The calls to the target, in the order the source writes them. *)
Definition accessor_calls : list call :=
  [CallBuildCouplingMap; CallOperationNames; CallDurations;
   CallInstructionScheduleMap; CallTimingConstraints; CallToBackendProperties].

(** All the calls in the order the source writes them, for a given level. *)
Definition source_order (level : Z) : list call :=
  (accessor_calls ++ [CallFromBackend; CallLevelBuilder level])%list.

(** The six guarded calls of lines 145-156 on the target [t], in order: the
    exception each raises, if any. *)
Definition target_attempts (a : Args.t) (t : Target) : list (option exception) :=
  [attempt (Args.coupling_map a) (target_build_coupling_map T t);
   attempt (Args.basis_gates a) (target_operation_names T t);
   attempt (Args.instruction_durations a) (target_durations T t);
   attempt (Args.inst_map a) (target_instruction_schedule_map T t);
   attempt (Args.timing_constraints a) (target_timing_constraints T t);
   attempt (Args.backend_properties a) (target_to_backend_properties T t)].

(** The calls of the target step. *)
Definition target_calls (a : Args.t) : list call :=
  match Args.target a with
  | None => []
  | Some t =>
      log_until
        [(step_calls (Args.coupling_map a) CallBuildCouplingMap,
          is_ok (if_none (Args.coupling_map a) (target_build_coupling_map T t)));
         (step_calls (Args.basis_gates a) CallOperationNames,
          is_ok (if_none (Args.basis_gates a) (target_operation_names T t)));
         (step_calls (Args.instruction_durations a) CallDurations,
          is_ok (if_none (Args.instruction_durations a) (target_durations T t)));
         (step_calls (Args.inst_map a) CallInstructionScheduleMap,
          is_ok (if_none (Args.inst_map a) (target_instruction_schedule_map T t)));
         (step_calls (Args.timing_constraints a) CallTimingConstraints,
          is_ok (if_none (Args.timing_constraints a)
                   (target_timing_constraints T t)));
         (step_calls (Args.backend_properties a) CallToBackendProperties,
          is_ok (if_none (Args.backend_properties a)
                   (target_to_backend_properties T t)))]
  end.

Definition backend_calls (a : Args.t) : list call :=
  match Args.backend a with
  | Some _ => [CallFromBackend]
  | None => []
  end.

Definition builder_calls (level : Z) : list call :=
  match builder_for L level with
  | Some _ => [CallLevelBuilder level]
  | None => []
  end.

(** The calls of a whole run, step by step. *)
Definition expected_calls (a : Args.t) : list call :=
  (target_calls a ++
   match fill_from_target T a with
   | inl _ => []
   | inr a' =>
       backend_calls a ++
       match build_config from_backend a' with
       | inl _ => []
       | inr _ => builder_calls (Args.optimization_level a)
       end
   end)%list.

(** The collaborator called by [ev] was consulted by the call [a] and
    raised [e]. *)
Definition call_raised (a : Args.t) (ev : call) (e : exception) : Prop :=
  match ev with
  | CallBuildCouplingMap =>
      exists t, Args.target a = Some t /\ Args.coupling_map a = None /\
                target_build_coupling_map T t = Raises e
  | CallOperationNames =>
      exists t, Args.target a = Some t /\ Args.basis_gates a = None /\
                target_operation_names T t = Raises e
  | CallDurations =>
      exists t, Args.target a = Some t /\ Args.instruction_durations a = None /\
                target_durations T t = Raises e
  | CallInstructionScheduleMap =>
      exists t, Args.target a = Some t /\ Args.inst_map a = None /\
                target_instruction_schedule_map T t = Raises e
  | CallTimingConstraints =>
      exists t, Args.target a = Some t /\ Args.timing_constraints a = None /\
                target_timing_constraints T t = Raises e
  | CallToBackendProperties =>
      exists t, Args.target a = Some t /\ Args.backend_properties a = None /\
                target_to_backend_properties T t = Raises e
  | CallFromBackend =>
      exists b a', Args.backend a = Some b /\
                   fill_from_target T a = Returns a' /\
                   from_backend b (pm_options a') = Raises e
  | CallLevelBuilder k =>
      exists build cfg, k = Args.optimization_level a /\
                        builder_for L k = Some build /\
                        resolve_config T from_backend a = Returns cfg /\
                        build cfg = Raises e
  end.

(** The call [a] with the six derived fields of [cfg] passed explicitly. *)
Definition with_resolved (cfg : PassManagerConfig) (a : Args.t) : Args.t :=
  {| Args.optimization_level := Args.optimization_level a;
     Args.backend := Args.backend a;
     Args.target := Args.target a;
     Args.basis_gates := basis_gates cfg;
     Args.inst_map := inst_map cfg;
     Args.coupling_map := coupling_map cfg;
     Args.instruction_durations := instruction_durations cfg;
     Args.backend_properties := backend_properties cfg;
     Args.timing_constraints := timing_constraints cfg;
     Args.initial_layout := Args.initial_layout a;
     Args.layout_method := Args.layout_method a;
     Args.routing_method := Args.routing_method a;
     Args.translation_method := Args.translation_method a;
     Args.scheduling_method := Args.scheduling_method a;
     Args.approximation_degree := Args.approximation_degree a;
     Args.seed_transpiler := Args.seed_transpiler a;
     Args.unitary_synthesis_method := Args.unitary_synthesis_method a;
     Args.unitary_synthesis_plugin_config :=
       Args.unitary_synthesis_plugin_config a |}.

(** The six derived fields of [cfg] come from the call [a] and its target:
    the value passed, else what the target returned, else [None]. *)
Definition derived_fields (a : Args.t) (cfg : PassManagerConfig) : Prop :=
  filled (Args.coupling_map a)
    (option_map (target_build_coupling_map T) (Args.target a)) (coupling_map cfg) /\
  filled (Args.basis_gates a)
    (option_map (target_operation_names T) (Args.target a)) (basis_gates cfg) /\
  filled (Args.instruction_durations a)
    (option_map (target_durations T) (Args.target a)) (instruction_durations cfg) /\
  filled (Args.inst_map a)
    (option_map (target_instruction_schedule_map T) (Args.target a)) (inst_map cfg) /\
  filled (Args.timing_constraints a)
    (option_map (target_timing_constraints T) (Args.target a))
    (timing_constraints cfg) /\
  filled (Args.backend_properties a)
    (option_map (target_to_backend_properties T) (Args.target a))
    (backend_properties cfg).

End Logs.

(** A target with two accessors that raise: the operation names and the
    instruction schedule map. *)
Definition two_failures : Sample.descriptor :=
  {| Sample.connectivity := Returns None;
     Sample.operation_names :=
       Raises {| exc_class := "KeyError"; exc_msg := "operation_names" |};
     Sample.durations := Returns None;
     Sample.schedule_map :=
       Raises {| exc_class := "PulseError"; exc_msg := "instruction_schedule_map" |};
     Sample.timing := Returns None;
     Sample.properties := Returns None |}.

(** [generate_preset_pass_manager(1, target=two_failures, basis_gates=gates)]. *)
Definition call_on_two_failures (gates : option (list string))
  : @Args.t Sample.domain :=
  {| Args.optimization_level := 1;
     Args.backend := None;
     Args.target := Some two_failures;
     Args.basis_gates := gates;
     Args.inst_map := None;
     Args.coupling_map := None;
     Args.instruction_durations := None;
     Args.backend_properties := None;
     Args.timing_constraints := None;
     Args.initial_layout := None;
     Args.layout_method := None;
     Args.routing_method := None;
     Args.translation_method := None;
     Args.scheduling_method := None;
     Args.approximation_degree := None;
     Args.seed_transpiler := None;
     Args.unitary_synthesis_method := "default";
     Args.unitary_synthesis_plugin_config := None |}.

(** [generate_preset_pass_manager(level, routing_method=method)]. *)
Definition call_with_routing (level : Z) (method : string) : @Args.t Sample.domain :=
  {| Args.optimization_level := level;
     Args.backend := None;
     Args.target := None;
     Args.basis_gates := None;
     Args.inst_map := None;
     Args.coupling_map := None;
     Args.instruction_durations := None;
     Args.backend_properties := None;
     Args.timing_constraints := None;
     Args.initial_layout := None;
     Args.layout_method := None;
     Args.routing_method := Some method;
     Args.translation_method := None;
     Args.scheduling_method := None;
     Args.approximation_degree := None;
     Args.seed_transpiler := None;
     Args.unitary_synthesis_method := "default";
     Args.unitary_synthesis_plugin_config := None |}.

(** * Properties *)

(** ** Binding in [outcome] *)

Section OutcomeFacts.
Variables A B : Type.

Lemma bind_returns (m : outcome A) (k : A -> outcome B) (v : B) :
  bind m k = Returns v -> exists x, m = Returns x /\ k x = Returns v.
Proof.
  destruct m as [e | x]; simpl; intros H.
  - discriminate H.
  - exists x. split; [reflexivity | exact H].
Qed.

Lemma bind_raises (m : outcome A) (k : A -> outcome B) (e : exception) :
  bind m k = Raises e ->
  m = Raises e \/ exists x, m = Returns x /\ k x = Raises e.
Proof.
  destruct m as [e' | x]; simpl; intros H.
  - left. injection H as ->. reflexivity.
  - right. exists x. split; [reflexivity | exact H].
Qed.

Lemma bind_of_returns (m : outcome A) (k : A -> outcome B) (x : A) :
  m = Returns x -> bind m k = k x.
Proof. intros ->. reflexivity. Qed.

Lemma bind_of_raises (m : outcome A) (k : A -> outcome B) (e : exception) :
  m = Raises e -> bind m k = Raises e.
Proof. intros ->. reflexivity. Qed.

Lemma if_none_returns (x : option A) (call : outcome (option A)) (r : option A) :
  if_none x call = Returns r -> filled x (Some call) r.
Proof.
  destruct x as [v |]; simpl; intros H.
  - injection H as <-. reflexivity.
  - exact H.
Qed.

Lemma if_none_raises (x : option A) (call : outcome (option A)) (e : exception) :
  if_none x call = Raises e -> x = None /\ call = Raises e.
Proof.
  destruct x as [v |]; simpl; intros H.
  - discriminate H.
  - split; [reflexivity | exact H].
Qed.

Lemma if_none_answers (x : option A) (call : outcome (option A)) :
  returns call -> returns (if_none x call).
Proof.
  intros Hc. destruct x as [v |]; simpl.
  - exists (Some v). reflexivity.
  - exact Hc.
Qed.

Lemma if_none_passed (x : option A) (call : outcome (option A)) :
  x <> None -> if_none x call = Returns x.
Proof.
  destruct x as [v |]; simpl; intros H.
  - reflexivity.
  - contradiction H. reflexivity.
Qed.

Lemma if_none_absent (x : option A) (call call' : outcome (option A)) :
  (x = None -> call = call') -> if_none x call = if_none x call'.
Proof.
  destruct x as [v |]; simpl; intros H.
  - reflexivity.
  - apply H. reflexivity.
Qed.

Lemma filled_passed (x r : option A) (call : option (outcome (option A))) (v : A) :
  filled x call r -> x = Some v -> r = Some v.
Proof. intros H ->. exact H. Qed.

End OutcomeFacts.

(** ** The two resolution steps *)

Ltac bind_inv H :=
  let x := fresh "x" in
  let Hx := fresh "Hx" in
  apply bind_returns in H; destruct H as (x & Hx & H);
  apply if_none_returns in Hx.

Section ResolutionFacts.
Context {D : Domain}.
Variable T : TargetAccessors outcome.
Variable B : BackendAccessors outcome.

Lemma fill_from_target_returns (a a' : Args.t) :
  fill_from_target T a = Returns a' ->
  same_call_otherwise a a' /\ derived_from_target T a a'.
Proof.
  unfold fill_from_target, same_call_otherwise, derived_from_target.
  destruct (Args.target a) as [t |] eqn:Ht; intros H.
  - do 6 bind_inv H.
    injection H as <-. simpl. repeat split; assumption.
  - injection H as <-. simpl.
    repeat split;
      first [ exact Ht
            | match goal with |- filled ?x None ?x => destruct x; reflexivity end ].
Qed.

Lemma fill_from_target_raises (a : Args.t) (e : exception) :
  fill_from_target T a = Raises e ->
  exists t, Args.target a = Some t /\ raised_by_target T t e.
Proof.
  unfold fill_from_target, raised_by_target.
  destruct (Args.target a) as [t |]; intros H; [| discriminate H].
  exists t. split; [reflexivity |].
  repeat (apply bind_raises in H;
          destruct H as [H | (? & _ & H)];
          [apply if_none_raises in H; tauto |]).
  discriminate H.
Qed.

Lemma fill_from_target_answers (a : Args.t) :
  target_answers T a -> returns (fill_from_target T a).
Proof.
  unfold target_answers, fill_from_target.
  destruct (Args.target a) as [t |]; intros H.
  - destruct H as (H1 & H2 & H3 & H4 & H5 & H6).
    destruct (if_none_answers (Args.coupling_map a) H1) as (v1 & ->).
    destruct (if_none_answers (Args.basis_gates a) H2) as (v2 & ->).
    destruct (if_none_answers (Args.instruction_durations a) H3) as (v3 & ->).
    destruct (if_none_answers (Args.inst_map a) H4) as (v4 & ->).
    destruct (if_none_answers (Args.timing_constraints a) H5) as (v5 & ->).
    destruct (if_none_answers (Args.backend_properties a) H6) as (v6 & ->).
    simpl. eexists. reflexivity.
  - eexists. reflexivity.
Qed.

Lemma fill_from_target_passed (a : Args.t) :
  all_overrides a -> exists a', fill_from_target T a = Returns a' /\ pm_options a' = pm_options a.
Proof.
  unfold all_overrides, fill_from_target.
  intros (H1 & H2 & H3 & H4 & H5 & H6).
  destruct (Args.target a) as [t |] eqn:Ht.
  - rewrite (if_none_passed _ H1), (if_none_passed _ H2), (if_none_passed _ H3),
      (if_none_passed _ H4), (if_none_passed _ H5), (if_none_passed _ H6).
    simpl. eexists. split; [reflexivity |].
    unfold pm_options. simpl. rewrite Ht. reflexivity.
  - eexists. split; reflexivity.
Qed.

Lemma from_backend_model_returns (b : Backend) (opts cfg : PassManagerConfig) :
  from_backend_model B b opts = Returns cfg ->
  same_config_otherwise opts cfg /\ derived_from_backend B b opts cfg.
Proof.
  unfold from_backend_model, same_config_otherwise, derived_from_backend.
  intros H. do 6 bind_inv H.
  injection H as <-. simpl. repeat split; assumption.
Qed.

Lemma from_backend_model_raises (b : Backend) (opts : PassManagerConfig)
  (e : exception) :
  from_backend_model B b opts = Raises e -> raised_by_backend B b e.
Proof.
  unfold from_backend_model, raised_by_backend. intros H.
  repeat (apply bind_raises in H;
          destruct H as [H | (? & _ & H)];
          [apply if_none_raises in H; tauto |]).
  discriminate H.
Qed.

Lemma from_backend_model_answers (b : Backend) (opts : PassManagerConfig) :
  returns (backend_connectivity B b) ->
  returns (backend_basis_gate_set B b) ->
  returns (backend_duration_table B b) ->
  returns (backend_calibration_map B b) ->
  returns (backend_timing B b) ->
  returns (backend_property_table B b) ->
  returns (from_backend_model B b opts).
Proof.
  intros H1 H2 H3 H4 H5 H6. unfold from_backend_model.
  destruct (if_none_answers (coupling_map opts) H1) as (v1 & ->).
  destruct (if_none_answers (basis_gates opts) H2) as (v2 & ->).
  destruct (if_none_answers (instruction_durations opts) H3) as (v3 & ->).
  destruct (if_none_answers (inst_map opts) H4) as (v4 & ->).
  destruct (if_none_answers (timing_constraints opts) H5) as (v5 & ->).
  destruct (if_none_answers (backend_properties opts) H6) as (v6 & ->).
  simpl. eexists. reflexivity.
Qed.

Lemma from_backend_model_passed (b : Backend) (opts : PassManagerConfig) :
  coupling_map opts <> None -> basis_gates opts <> None ->
  instruction_durations opts <> None -> inst_map opts <> None ->
  timing_constraints opts <> None -> backend_properties opts <> None ->
  from_backend_model B b opts = Returns opts.
Proof.
  intros H1 H2 H3 H4 H5 H6. unfold from_backend_model.
  rewrite (if_none_passed _ H1), (if_none_passed _ H2), (if_none_passed _ H3),
    (if_none_passed _ H4), (if_none_passed _ H5), (if_none_passed _ H6).
  destruct opts. reflexivity.
Qed.

End ResolutionFacts.

(** ** The resolved configuration *)

Section ResolvedConfig.
Context {D : Domain}.
Variable T : TargetAccessors outcome.
Variable B : BackendAccessors outcome.

(** What [build_config] does with the backend of the call. *)
Lemma build_config_returns (a' : Args.t) (cfg : PassManagerConfig) :
  build_config (from_backend_model B) a' = Returns cfg ->
  match Args.backend a' with
  | Some b =>
      same_config_otherwise (pm_options a') cfg /\
      derived_from_backend B b (pm_options a') cfg
  | None => cfg = pm_options a'
  end.
Proof.
  unfold build_config. destruct (Args.backend a') as [b |]; intros H.
  - apply from_backend_model_returns. exact H.
  - injection H as <-. reflexivity.
Qed.

(** A returned configuration went through both steps. *)
Lemma resolve_config_returns (a : Args.t) (cfg : PassManagerConfig) :
  resolve_config T (from_backend_model B) a = Returns cfg ->
  exists a',
    same_call_otherwise a a' /\ derived_from_target T a a' /\
    match Args.backend a with
    | Some b =>
        same_config_otherwise (pm_options a') cfg /\
        derived_from_backend B b (pm_options a') cfg
    | None => cfg = pm_options a'
    end.
Proof.
  unfold resolve_config. intros H.
  apply bind_returns in H. destruct H as (a' & Hfill & Hbuild).
  apply fill_from_target_returns in Hfill. destruct Hfill as (Hsame & Hder).
  apply build_config_returns in Hbuild.
  exists a'. split; [exact Hsame |]. split; [exact Hder |].
  destruct Hsame as (_ & Hb & _). rewrite Hb in Hbuild. exact Hbuild.
Qed.

(** Resolution returns when the descriptors answer. *)
Lemma resolve_config_answers (a : Args.t) :
  target_answers T a -> backend_answers B a ->
  returns (resolve_config T (from_backend_model B) a).
Proof.
  intros Ht Hb. unfold resolve_config.
  destruct (fill_from_target_answers T a Ht) as (a' & Hfill).
  rewrite Hfill. simpl.
  apply fill_from_target_returns in Hfill. destruct Hfill as ((_ & Hsame & _) & _).
  unfold build_config. rewrite Hsame.
  unfold backend_answers in Hb.
  destruct (Args.backend a) as [b |].
  - destruct Hb as (H1 & H2 & H3 & H4 & H5 & H6).
    apply from_backend_model_answers; assumption.
  - eexists. reflexivity.
Qed.

(** An override survives both steps. *)
Lemma override_kept (A : Type) (x x' y : option A)
  (tc bc : option (outcome (option A))) (v : A) :
  filled x tc x' -> filled x' bc y -> x = Some v -> y = Some v.
Proof.
  intros H1 H2 Hx.
  eapply filled_passed; [exact H2 |].
  eapply filled_passed; [exact H1 | exact Hx].
Qed.

End ResolvedConfig.

(** ** Precedence of explicit values *)

(** C1.  A derivable parameter that was passed (not [None]) is the field of
    the resolved configuration, whatever target or backend was passed with
    it: this holds for the coupling map, the basis gates, the instruction
    durations, the schedule map, the timing constraints and the backend
    properties alike.  In particular explicit basis gates win over the
    operation names of the target.  Resolution returns when the descriptors
    answer; when all six parameters were passed it returns them without
    consulting any descriptor; and the accessor of the target for a
    parameter that was passed is never consulted: what it would answer, or
    raise, changes nothing. *)
Theorem explicit_value_wins {D : Domain} (T : TargetAccessors outcome)
  (B : BackendAccessors outcome) (a : Args.t) :
  (target_answers T a -> backend_answers B a ->
   returns (resolve_config T (from_backend_model B) a)) /\
  (all_overrides a ->
   resolve_config T (from_backend_model B) a = Returns (pm_options a)) /\
  (forall cfg, resolve_config T (from_backend_model B) a = Returns cfg ->
     (forall v, Args.coupling_map a = Some v -> coupling_map cfg = Some v) /\
     (forall v, Args.basis_gates a = Some v -> basis_gates cfg = Some v) /\
     (forall v, Args.instruction_durations a = Some v ->
                instruction_durations cfg = Some v) /\
     (forall v, Args.inst_map a = Some v -> inst_map cfg = Some v) /\
     (forall v, Args.timing_constraints a = Some v ->
                timing_constraints cfg = Some v) /\
     (forall v, Args.backend_properties a = Some v ->
                backend_properties cfg = Some v)) /\
  (forall T' fb, agree_where_absent T T' a ->
     resolve_config T fb a = resolve_config T' fb a).
Proof.
  split; [apply resolve_config_answers |]. split; [| split].
  - intros Hall. unfold resolve_config.
    destruct (fill_from_target_passed T Hall) as (a' & Hfill & Hopts).
    rewrite Hfill. simpl.
    pose proof (fill_from_target_returns T a Hfill) as ((_ & Hb & _) & _).
    unfold build_config. rewrite Hb, Hopts.
    destruct (Args.backend a) as [b |]; [| reflexivity].
    destruct Hall as (H1 & H2 & H3 & H4 & H5 & H6).
    apply from_backend_model_passed; assumption.
  - intros cfg H.
    apply resolve_config_returns in H.
    destruct H as (a' & _ & (T1 & T2 & T3 & T4 & T5 & T6) & Hcfg).
    destruct (Args.backend a) as [b |].
    + destruct Hcfg as (_ & (B1 & B2 & B3 & B4 & B5 & B6)).
      simpl in B1, B2, B3, B4, B5, B6.
      repeat split; intros v Hv;
        (eapply override_kept; [ | | exact Hv]; eassumption).
    + subst cfg. simpl.
      repeat split; intros v Hv;
        (eapply filled_passed; [ | exact Hv]; eassumption).
  - intros T' fb Hagree. unfold resolve_config, fill_from_target.
    unfold agree_where_absent in Hagree.
    destruct (Args.target a) as [t |]; [| reflexivity].
    destruct Hagree as (H1 & H2 & H3 & H4 & H5 & H6).
    rewrite (if_none_absent H1), (if_none_absent H2), (if_none_absent H3),
      (if_none_absent H4), (if_none_absent H5), (if_none_absent H6).
    reflexivity.
Qed.

Lemma explicit_value_wins_witness :
  exists cfg,
    Sample.resolve (Sample.call_with_basis 1 (Some Sample.five_qubit_backend))
      = Returns cfg /\
    basis_gates cfg = Some ["u3"; "cx"] /\
    Sample.operation_names Sample.five_qubit_target
      = Returns (Some ["id"; "rz"; "sx"; "x"; "cx"; "measure"]).
Proof.
  destruct (proj1 (explicit_value_wins Sample.accessors Sample.backend_accessors
                     (Sample.call_with_basis 1 (Some Sample.five_qubit_backend))))
    as (cfg & Hcfg).
  - simpl. repeat split; eexists; reflexivity.
  - simpl. repeat split; eexists; reflexivity.
  - exists cfg. split; [exact Hcfg |]. split; [| reflexivity].
    apply (proj1 (proj2 (proj2 (explicit_value_wins Sample.accessors
             Sample.backend_accessors
             (Sample.call_with_basis 1 (Some Sample.five_qubit_backend))))) cfg Hcfg).
    reflexivity.
Defined.

(** ** Derivation from the target alone *)

Section TargetOnly.
Context {D : Domain}.
Variable T : TargetAccessors outcome.
Variable from_backend : Backend -> PassManagerConfig -> outcome PassManagerConfig.

(** With a target and no override, every accessor is consulted. *)
Lemma fill_from_target_consults (a a' : Args.t) (t : Target) :
  Args.target a = Some t -> no_overrides a ->
  derived_from_target T a a' ->
  target_build_coupling_map T t = Returns (Args.coupling_map a') /\
  target_operation_names T t = Returns (Args.basis_gates a') /\
  target_durations T t = Returns (Args.instruction_durations a') /\
  target_instruction_schedule_map T t = Returns (Args.inst_map a') /\
  target_timing_constraints T t = Returns (Args.timing_constraints a') /\
  target_to_backend_properties T t = Returns (Args.backend_properties a').
Proof.
  unfold no_overrides, derived_from_target.
  intros -> (-> & -> & -> & -> & -> & ->). simpl. tauto.
Qed.

End TargetOnly.

(** C2.  When a target is passed, no backend and none of the six derivable
    parameters, the call resolves to the configuration [cfg] exactly when
    the six accessors of the target return the six derived fields of [cfg]:
    the coupling map built by the target, its operation names, its
    durations, its instruction schedule map, its timing constraints and the
    backend properties converted from it; the other fields are those of the
    call. *)
Theorem target_only_derivation {D : Domain} (T : TargetAccessors outcome)
  (from_backend : Backend -> PassManagerConfig -> outcome PassManagerConfig)
  (a : Args.t) (t : Target) :
  Args.backend a = None -> Args.target a = Some t -> no_overrides a ->
  forall cfg,
    resolve_config T from_backend a = Returns cfg <->
    (target_build_coupling_map T t = Returns (coupling_map cfg) /\
     target_operation_names T t = Returns (basis_gates cfg) /\
     target_durations T t = Returns (instruction_durations cfg) /\
     target_instruction_schedule_map T t = Returns (inst_map cfg) /\
     target_timing_constraints T t = Returns (timing_constraints cfg) /\
     target_to_backend_properties T t = Returns (backend_properties cfg) /\
     target cfg = Some t /\ passes_through a cfg).
Proof.
  intros Hb Ht Hno cfg. split.
  - unfold resolve_config. intros H.
    apply bind_returns in H. destruct H as (a' & Hfill & Hbuild).
    apply fill_from_target_returns in Hfill. destruct Hfill as (Hsame & Hder).
    pose proof (fill_from_target_consults Ht Hno Hder) as Hacc.
    destruct Hsame as (_ & Hb' & Ht' & S1 & S2 & S3 & S4 & S5 & S6 & S7 & S8 & S9).
    unfold build_config in Hbuild. rewrite Hb', Hb in Hbuild.
    injection Hbuild as <-. unfold passes_through. simpl.
    rewrite Ht', Ht, S1, S2, S3, S4, S5, S6, S7, S8, S9. tauto.
  - intros (H1 & H2 & H3 & H4 & H5 & H6 & Htc & Hpass).
    destruct Hno as (N1 & N2 & N3 & N4 & N5 & N6).
    destruct Hpass as (P1 & P2 & P3 & P4 & P5 & P6 & P7 & P8 & P9).
    unfold resolve_config, fill_from_target.
    rewrite Ht, N1, N2, N3, N4, N5, N6. simpl if_none.
    rewrite H1, H2, H3, H4, H5, H6. simpl.
    unfold build_config. simpl. rewrite Hb.
    unfold pm_options. simpl.
    rewrite <- Htc, <- P1, <- P2, <- P3, <- P4, <- P5, <- P6, <- P7, <- P8, <- P9.
    destruct cfg. reflexivity.
Qed.

Lemma target_only_derivation_witness :
  exists cfg,
    Sample.resolve (Sample.call_with 2 None (Some Sample.five_qubit_target))
      = Returns cfg /\
    Returns (coupling_map cfg) = Sample.connectivity Sample.five_qubit_target /\
    Returns (basis_gates cfg) = Sample.operation_names Sample.five_qubit_target /\
    Returns (backend_properties cfg) = Sample.properties Sample.five_qubit_target.
Proof.
  eexists. split.
  - apply (proj2 (@target_only_derivation Sample.domain Sample.accessors
                    (from_backend_model Sample.backend_accessors)
                    (Sample.call_with 2 None (Some Sample.five_qubit_target))
                    Sample.five_qubit_target eq_refl eq_refl
                    (conj eq_refl (conj eq_refl (conj eq_refl
                       (conj eq_refl (conj eq_refl eq_refl)))))
                    (pm_options (@Args.make Sample.domain 2 None
                       (Some Sample.five_qubit_target)
                       (Some ["id"; "rz"; "sx"; "x"; "cx"; "measure"])
                       None
                       (Some [(0, 1); (1, 0); (1, 2); (2, 1); (1, 3); (3, 1); (3, 4); (4, 3)]%nat)
                       (Some [("sx", 160%nat); ("cx", 1408%nat)])
                       None (Some 16%nat) None None None None None None None
                       "default" None)))).
    simpl. unfold passes_through. simpl. repeat split.
  - simpl. repeat split.
Defined.

(** ** Target before backend *)

Section Layering.
Context {D : Domain}.
Variable T : TargetAccessors outcome.

(** A field the target answered for, then offered to the backend. *)
Lemma layered (A : Type) (tv bv : outcome (option A)) (x' y : option A) :
  tv = Returns x' -> filled x' (Some bv) y -> target_then_backend tv bv y.
Proof.
  intros Htv Hy. exists x'. split; [exact Htv |].
  destruct x' as [v |]; exact Hy.
Qed.

(** With a backend, the options after the target step are what
    [from_backend] receives. *)
Lemma resolve_config_hands_over
  (fb : Backend -> PassManagerConfig -> outcome PassManagerConfig)
  (a : Args.t) (b : Backend) (cfg : PassManagerConfig) :
  Args.backend a = Some b ->
  resolve_config T fb a = Returns cfg ->
  exists a', same_call_otherwise a a' /\ derived_from_target T a a' /\
             fb b (pm_options a') = Returns cfg.
Proof.
  intros Hb H. unfold resolve_config in H.
  apply bind_returns in H. destruct H as (a' & Hfill & Hbuild).
  apply fill_from_target_returns in Hfill. destruct Hfill as (Hsame & Hder).
  exists a'. split; [exact Hsame |]. split; [exact Hder |].
  destruct Hsame as (_ & Hb' & _).
  unfold build_config in Hbuild. rewrite Hb', Hb in Hbuild. exact Hbuild.
Qed.

(** The nine fields no descriptor supplies, after the target step. *)
Lemma pm_options_passes_through (a a' : Args.t) :
  same_call_otherwise a a' -> passes_through a (pm_options a').
Proof.
  intros (_ & _ & _ & S1 & S2 & S3 & S4 & S5 & S6 & S7 & S8 & S9).
  unfold passes_through. simpl. tauto.
Qed.

End Layering.

(** C3.  When a target and a backend are passed and none of the six
    derivable parameters, the values derived from the target are computed
    first and handed to the backend step as the options already set: what
    [from_backend] receives carries the six answers of the target.  In the
    resolved configuration every derived field is the value the target
    returned unless that value is absent, and only then the value the
    backend returned. *)
Theorem target_precedes_backend {D : Domain} (T : TargetAccessors outcome)
  (B : BackendAccessors outcome) (a : Args.t) (t : Target) (b : Backend) :
  Args.target a = Some t -> Args.backend a = Some b -> no_overrides a ->
  (forall fb cfg, resolve_config T fb a = Returns cfg ->
     exists opts, fb b opts = Returns cfg /\
       target_build_coupling_map T t = Returns (coupling_map opts) /\
       target_operation_names T t = Returns (basis_gates opts) /\
       target_durations T t = Returns (instruction_durations opts) /\
       target_instruction_schedule_map T t = Returns (inst_map opts) /\
       target_timing_constraints T t = Returns (timing_constraints opts) /\
       target_to_backend_properties T t = Returns (backend_properties opts) /\
       target opts = Some t /\ passes_through a opts) /\
  (forall cfg, resolve_config T (from_backend_model B) a = Returns cfg ->
     target_then_backend (target_build_coupling_map T t)
       (backend_connectivity B b) (coupling_map cfg) /\
     target_then_backend (target_operation_names T t)
       (backend_basis_gate_set B b) (basis_gates cfg) /\
     target_then_backend (target_durations T t)
       (backend_duration_table B b) (instruction_durations cfg) /\
     target_then_backend (target_instruction_schedule_map T t)
       (backend_calibration_map B b) (inst_map cfg) /\
     target_then_backend (target_timing_constraints T t)
       (backend_timing B b) (timing_constraints cfg) /\
     target_then_backend (target_to_backend_properties T t)
       (backend_property_table B b) (backend_properties cfg)) /\
  (target_answers T a -> backend_answers B a ->
   returns (resolve_config T (from_backend_model B) a)).
Proof.
  intros Ht Hb Hno. split; [| split].
  - intros fb cfg H.
    destruct (resolve_config_hands_over T fb a Hb H) as (a' & Hsame & Hder & Hfb).
    exists (pm_options a'). split; [exact Hfb |].
    destruct (fill_from_target_consults Ht Hno Hder) as (H1 & H2 & H3 & H4 & H5 & H6).
    simpl. repeat (split; [assumption |]).
    split; [| apply pm_options_passes_through; exact Hsame].
    destruct Hsame as (_ & _ & Ht' & _). rewrite Ht'. exact Ht.
  - intros cfg H.
    destruct (resolve_config_hands_over T _ a Hb H) as (a' & _ & Hder & Hfb).
    destruct (fill_from_target_consults Ht Hno Hder) as (H1 & H2 & H3 & H4 & H5 & H6).
    apply from_backend_model_returns in Hfb.
    destruct Hfb as (_ & (B1 & B2 & B3 & B4 & B5 & B6)).
    simpl in B1, B2, B3, B4, B5, B6.
    repeat split; eapply layered; eassumption.
  - apply resolve_config_answers.
Qed.

Lemma target_precedes_backend_witness :
  exists cfg,
    Sample.resolve (Sample.call_with 1 (Some Sample.five_qubit_backend)
                      (Some Sample.five_qubit_target)) = Returns cfg /\
    Returns (coupling_map cfg) = Sample.connectivity Sample.five_qubit_target /\
    Returns (basis_gates cfg) = Sample.operation_names Sample.five_qubit_target /\
    Sample.schedule_map Sample.five_qubit_target = Returns None /\
    Returns (inst_map cfg) = Sample.schedule_map Sample.five_qubit_backend.
Proof.
  pose proof (@target_precedes_backend Sample.domain Sample.accessors
                Sample.backend_accessors
                (Sample.call_with 1 (Some Sample.five_qubit_backend)
                   (Some Sample.five_qubit_target))
                Sample.five_qubit_target Sample.five_qubit_backend
                eq_refl eq_refl
                (conj eq_refl (conj eq_refl (conj eq_refl
                   (conj eq_refl (conj eq_refl eq_refl)))))) as (_ & Hlayer & Hret).
  destruct Hret as (cfg & Hcfg).
  - simpl. repeat split; eexists; reflexivity.
  - simpl. repeat split; eexists; reflexivity.
  - exists cfg. split; [exact Hcfg |].
    destruct (Hlayer cfg Hcfg) as ((v1 & E1 & F1) & (v2 & E2 & F2) & _ &
                                   (v4 & E4 & F4) & _).
    simpl in E1, E2, E4.
    injection E1 as <-. injection E2 as <-. injection E4 as <-.
    simpl in F1, F2, F4. rewrite F1, F2. simpl.
    repeat split. symmetry. exact F4.
Defined.

(** ** The message of an invalid level *)

Lemma py_str_read (n : Z) : NilZero.int_of_string (py_str n) = Some (Z.to_int n).
Proof.
  unfold py_str. apply NilZero.isi; destruct n as [| p | p]; simpl;
    try discriminate; intros H; injection H as H;
    exact (DecimalPos.Unsigned.to_uint_nonnil p H).
Qed.

Lemma py_str_inj (n m : Z) : py_str n = py_str m -> n = m.
Proof.
  intros H. apply DecimalZ.to_int_inj.
  pose proof (py_str_read n) as Hn. rewrite H, py_str_read in Hn.
  injection Hn as Hn. symmetry. exact Hn.
Qed.

Lemma InvalidLevel_inj (n m : Z) : InvalidLevel n = InvalidLevel m -> n = m.
Proof.
  unfold InvalidLevel, ValueError. simpl. intros H.
  injection H as H. apply py_str_inj. exact H.
Qed.

(** ** The dispatcher *)

Section Dispatch.
Context {D : Domain}.
Variable T : TargetAccessors outcome.
Variable from_backend : Backend -> PassManagerConfig -> outcome PassManagerConfig.
Variable L : LevelBuilders outcome.

(** The chain of comparisons is the lookup in the table. *)
Lemma dispatch_lookup (level : Z) (cfg : PassManagerConfig) :
  dispatch L level cfg =
  match builder_for L level with
  | Some build => build cfg
  | None => Raises (InvalidLevel level)
  end.
Proof.
  unfold dispatch, builder_for.
  destruct level as [| p | p]; [reflexivity | | reflexivity].
  destruct p as [[q | q |] | [q | q |] |]; reflexivity.
Qed.

Lemma builder_for_valid (level : Z) :
  In level [0; 1; 2; 3]%Z -> exists build, builder_for L level = Some build.
Proof.
  simpl. intros [<- | [<- | [<- | [<- | []]]]]; eexists; reflexivity.
Qed.

Lemma builder_for_invalid (level : Z) :
  ~ In level [0; 1; 2; 3]%Z -> builder_for L level = None.
Proof.
  intros H. unfold builder_for.
  destruct level as [| p | p]; [| | reflexivity].
  - contradiction H. simpl. tauto.
  - destruct p as [[q | q |] | [q | q |] |]; try reflexivity;
      contradiction H; simpl; tauto.
Qed.

Lemma builder_for_some (level : Z)
  (build : PassManagerConfig -> outcome PassManager) :
  builder_for L level = Some build -> In level [0; 1; 2; 3]%Z.
Proof.
  unfold builder_for. intros H.
  destruct level as [| p | p]; [simpl; tauto | | discriminate H].
  destruct p as [[q | q |] | [q | q |] |]; try discriminate H; simpl; tauto.
Qed.

Lemma dispatch_invalid (level : Z) (cfg : PassManagerConfig) :
  ~ In level [0; 1; 2; 3]%Z -> dispatch L level cfg = Raises (InvalidLevel level).
Proof.
  intros H. rewrite dispatch_lookup, (builder_for_invalid H). reflexivity.
Qed.

(** The call is the resolution followed by the dispatch. *)
Lemma generate_after_resolution (a : Args.t) (cfg : PassManagerConfig) :
  resolve_config T from_backend a = Returns cfg ->
  generate_preset_pass_manager T from_backend L a =
  dispatch L (Args.optimization_level a) cfg.
Proof.
  intros H. unfold generate_preset_pass_manager. rewrite H. reflexivity.
Qed.

Lemma generate_resolution_raises (a : Args.t) (e : exception) :
  resolve_config T from_backend a = Raises e ->
  generate_preset_pass_manager T from_backend L a = Raises e.
Proof.
  intros H. unfold generate_preset_pass_manager. rewrite H. reflexivity.
Qed.

Lemma generate_returns (a : Args.t) (p : PassManager) :
  generate_preset_pass_manager T from_backend L a = Returns p ->
  exists cfg, resolve_config T from_backend a = Returns cfg /\
              dispatch L (Args.optimization_level a) cfg = Returns p.
Proof.
  unfold generate_preset_pass_manager. apply bind_returns.
Qed.

End Dispatch.

(** C4.  For an [optimization_level] outside 0, 1, 2, 3 the dispatch raises,
    on every configuration, the [ValueError] whose message is
    ["Invalid optimization level "] followed by the value, from which the
    value can be read back; the whole call never returns and raises that
    error whenever the configuration resolution returns.  It is the only
    error of the dispatch's own: any other exception it ends with was
    raised by the builder of the level.  For the level 7 the message is
    ["Invalid optimization level 7"]. *)
Theorem invalid_level_raises {D : Domain} (T : TargetAccessors outcome)
  (from_backend : Backend -> PassManagerConfig -> outcome PassManagerConfig)
  (L : LevelBuilders outcome) (level : Z) :
  ~ In level [0; 1; 2; 3]%Z ->
  (forall cfg, dispatch L level cfg = Raises (InvalidLevel level)) /\
  (forall a, Args.optimization_level a = level ->
     (forall p, generate_preset_pass_manager T from_backend L a <> Returns p) /\
     (returns (resolve_config T from_backend a) ->
      generate_preset_pass_manager T from_backend L a = Raises (InvalidLevel level))) /\
  (forall lv cfg e, dispatch L lv cfg = Raises e ->
     (~ In lv [0; 1; 2; 3]%Z /\ e = InvalidLevel lv) \/
     (exists build, builder_for L lv = Some build /\ build cfg = Raises e)) /\
  InvalidLevel level = ValueError ("Invalid optimization level " ++ py_str level) /\
  (forall level', InvalidLevel level' = InvalidLevel level -> level' = level) /\
  (level = 7%Z -> exc_msg (InvalidLevel level) = "Invalid optimization level 7").
Proof.
  intros Hlevel.
  split; [intros cfg; apply dispatch_invalid; exact Hlevel |].
  split; [| split; [| split; [reflexivity | split]]].
  - intros a Ha. split.
    + intros p Hp. apply generate_returns in Hp.
      destruct Hp as (cfg & _ & Hd).
      rewrite Ha, (dispatch_invalid L cfg Hlevel) in Hd. discriminate Hd.
    + intros (cfg & Hcfg).
      rewrite (generate_after_resolution T from_backend L a Hcfg), Ha.
      apply dispatch_invalid. exact Hlevel.
  - intros lv cfg e Hd. rewrite dispatch_lookup in Hd.
    destruct (builder_for L lv) as [build |] eqn:Hb.
    + right. exists build. split; [reflexivity | exact Hd].
    + left. injection Hd as <-. split; [| reflexivity].
      intros Hin. destruct (builder_for_valid L Hin) as (build & Hsome).
      rewrite Hsome in Hb. discriminate Hb.
  - intros level'. apply InvalidLevel_inj.
  - intros ->. reflexivity.
Qed.

Lemma invalid_level_raises_witness :
  Sample.run (Sample.call_with_basis 7 None)
    = Raises (ValueError "Invalid optimization level 7").
Proof.
  assert (Hlevel : ~ In 7%Z [0; 1; 2; 3]%Z).
  { simpl. intros [H | [H | [H | [H | []]]]]; discriminate H. }
  apply (proj2 (proj1 (proj2 (invalid_level_raises Sample.accessors
          (from_backend_model Sample.backend_accessors) Sample.builders Hlevel))
          (Sample.call_with_basis 7 None) eq_refl)).
  eexists. reflexivity.
Defined.

(** C5.  The four levels are looked up in a table of four builders, level
    [k] to [level_k_pass_manager].  For a level among 0, 1, 2, 3 the
    dispatch is the builder of the level applied to the configuration,
    whatever the configuration holds (the dispatch does not look into it);
    the call is the resolution followed by that builder: it returns the
    pipeline the builder returns on the resolved configuration and returns
    nothing else, and it raises only what the resolution or the builder
    raised. *)
Theorem valid_level_dispatch {D : Domain} (T : TargetAccessors outcome)
  (from_backend : Backend -> PassManagerConfig -> outcome PassManagerConfig)
  (L : LevelBuilders outcome) (level : Z) :
  In level [0; 1; 2; 3]%Z ->
  (builder_for L 0 = Some (level_0_pass_manager L) /\
   builder_for L 1 = Some (level_1_pass_manager L) /\
   builder_for L 2 = Some (level_2_pass_manager L) /\
   builder_for L 3 = Some (level_3_pass_manager L)) /\
  exists build, builder_for L level = Some build /\
    (forall cfg, dispatch L level cfg = build cfg) /\
    (forall a, Args.optimization_level a = level ->
       generate_preset_pass_manager T from_backend L a
         = (cfg <- resolve_config T from_backend a ;; build cfg) /\
       (forall cfg p, resolve_config T from_backend a = Returns cfg ->
          build cfg = Returns p ->
          generate_preset_pass_manager T from_backend L a = Returns p) /\
       (forall p, generate_preset_pass_manager T from_backend L a = Returns p ->
          exists cfg, resolve_config T from_backend a = Returns cfg /\
                      build cfg = Returns p) /\
       (forall e, generate_preset_pass_manager T from_backend L a = Raises e ->
          resolve_config T from_backend a = Raises e \/
          exists cfg, resolve_config T from_backend a = Returns cfg /\
                      build cfg = Raises e)).
Proof.
  intros Hlevel. split; [repeat split |].
  destruct (builder_for_valid L Hlevel) as (build & Hbuild).
  exists build. split; [exact Hbuild |].
  assert (Hd : forall cfg, dispatch L level cfg = build cfg).
  { intros cfg. rewrite dispatch_lookup, Hbuild. reflexivity. }
  split; [exact Hd |].
  intros a Ha. split; [| split; [| split]].
  - unfold generate_preset_pass_manager. rewrite Ha.
    destruct (resolve_config T from_backend a) as [e | cfg]; simpl.
    + reflexivity.
    + apply Hd.
  - intros cfg p Hcfg Hp.
    rewrite (generate_after_resolution T from_backend L a Hcfg), Ha, Hd.
    exact Hp.
  - intros p Hp. apply generate_returns in Hp.
    destruct Hp as (cfg & Hcfg & Hdp).
    exists cfg. split; [exact Hcfg |]. rewrite Ha, Hd in Hdp. exact Hdp.
  - intros e He. unfold generate_preset_pass_manager in He.
    apply bind_raises in He. destruct He as [He | (cfg & Hcfg & He)].
    + left. exact He.
    + right. exists cfg. split; [exact Hcfg |]. rewrite Ha, Hd in He. exact He.
Qed.

Lemma valid_level_dispatch_witness :
  Sample.run (Sample.call_with_basis 3 None)
    = Sample.level_pass_manager 3
        (pm_options (@Args.make Sample.domain 3 None
           (Some Sample.five_qubit_target) (Some ["u3"; "cx"]) None
           (Some [(0, 1); (1, 0); (1, 2); (2, 1); (1, 3); (3, 1); (3, 4); (4, 3)]%nat)
           (Some [("sx", 160%nat); ("cx", 1408%nat)]) None (Some 16%nat)
           None None (Some "sabre") None None None (Some 42%Z) "default" None)) /\
  Sample.run (Sample.call_with_basis 3 None)
    = Returns ["layout"; "routing"; "translation";
               "optimization"; "optimization"; "optimization"].
Proof.
  assert (Hlevel : In 3%Z [0; 1; 2; 3]%Z) by (simpl; tauto).
  destruct (valid_level_dispatch Sample.accessors
              (from_backend_model Sample.backend_accessors) Sample.builders Hlevel)
    as (_ & build & Hbuild & _ & Hcall).
  injection Hbuild as <-.
  destruct (Hcall (Sample.call_with_basis 3 None) eq_refl) as (Heq & _).
  split; [exact Heq |].
  unfold Sample.run. rewrite Heq. reflexivity.
Defined.

(** ** Resolution before dispatch *)

(** C9.  The level is looked at only after the configuration resolution:
    an exception raised during the resolution, by an accessor of the target
    or by [from_backend], ends the call whatever the level, valid or not;
    the resolution itself does not depend on the level; and for a level
    outside 0, 1, 2, 3 the invalid-level error is raised exactly when the
    resolution has returned a configuration (or was itself that error). *)
Theorem resolution_precedes_level_check {D : Domain} (T : TargetAccessors outcome)
  (from_backend : Backend -> PassManagerConfig -> outcome PassManagerConfig)
  (L : LevelBuilders outcome) (a : Args.t) :
  (forall e, resolve_config T from_backend a = Raises e ->
     generate_preset_pass_manager T from_backend L a = Raises e) /\
  (forall t e, Args.target a = Some t -> no_overrides a ->
     raised_by_target T t e ->
     exists e', generate_preset_pass_manager T from_backend L a = Raises e' /\
                raised_by_target T t e') /\
  (forall b a' e, Args.backend a = Some b ->
     fill_from_target T a = Returns a' ->
     from_backend b (pm_options a') = Raises e ->
     generate_preset_pass_manager T from_backend L a = Raises e) /\
  (forall level, resolve_config T from_backend (with_level level a)
                 = resolve_config T from_backend a) /\
  (~ In (Args.optimization_level a) [0; 1; 2; 3]%Z ->
   (forall cfg, resolve_config T from_backend a = Returns cfg ->
      generate_preset_pass_manager T from_backend L a
        = Raises (InvalidLevel (Args.optimization_level a))) /\
   (generate_preset_pass_manager T from_backend L a
      = Raises (InvalidLevel (Args.optimization_level a)) ->
    returns (resolve_config T from_backend a) \/
    resolve_config T from_backend a
      = Raises (InvalidLevel (Args.optimization_level a)))).
Proof.
  split; [intros e; apply generate_resolution_raises |].
  split; [| split; [| split]].
  - intros t e Ht (N1 & N2 & N3 & N4 & N5 & N6) He.
    unfold generate_preset_pass_manager, resolve_config, fill_from_target,
      raised_by_target in *.
    rewrite Ht, N1, N2, N3, N4, N5, N6. simpl if_none.
    destruct (target_build_coupling_map T t) as [e1 | v1];
      [exists e1; simpl; tauto |].
    destruct (target_operation_names T t) as [e2 | v2];
      [exists e2; simpl; tauto |].
    destruct (target_durations T t) as [e3 | v3];
      [exists e3; simpl; tauto |].
    destruct (target_instruction_schedule_map T t) as [e4 | v4];
      [exists e4; simpl; tauto |].
    destruct (target_timing_constraints T t) as [e5 | v5];
      [exists e5; simpl; tauto |].
    destruct (target_to_backend_properties T t) as [e6 | v6];
      [exists e6; simpl; tauto |].
    exfalso. destruct He as [H | [H | [H | [H | [H | H]]]]]; discriminate H.
  - intros b a' e Hb Hfill He.
    apply generate_resolution_raises. unfold resolve_config.
    rewrite Hfill. simpl. unfold build_config.
    apply fill_from_target_returns in Hfill.
    destruct Hfill as ((_ & Hb' & _) & _). rewrite Hb', Hb. exact He.
  - intros level. unfold resolve_config, fill_from_target. simpl.
    destruct (Args.target a) as [t |]; [| reflexivity].
    destruct (if_none (Args.coupling_map a) (target_build_coupling_map T t))
      as [e1 | v1]; [reflexivity |].
    destruct (if_none (Args.basis_gates a) (target_operation_names T t))
      as [e2 | v2]; [reflexivity |].
    destruct (if_none (Args.instruction_durations a) (target_durations T t))
      as [e3 | v3]; [reflexivity |].
    destruct (if_none (Args.inst_map a) (target_instruction_schedule_map T t))
      as [e4 | v4]; [reflexivity |].
    destruct (if_none (Args.timing_constraints a) (target_timing_constraints T t))
      as [e5 | v5]; [reflexivity |].
    destruct (if_none (Args.backend_properties a) (target_to_backend_properties T t))
      as [e6 | v6]; reflexivity.
  - intros Hlevel. split.
    + intros cfg Hcfg.
      rewrite (generate_after_resolution T from_backend L a Hcfg).
      apply dispatch_invalid. exact Hlevel.
    + intros H.
      destruct (resolve_config T from_backend a) as [e | cfg] eqn:Hres.
      * right. rewrite (generate_resolution_raises T from_backend L a Hres) in H.
        injection H as ->. reflexivity.
      * left. exists cfg. reflexivity.
Qed.

Lemma resolution_precedes_level_check_witness :
  Sample.run (Sample.call_with 7 None (Some Sample.failing_descriptor))
    = Raises {| exc_class := "AttributeError"; exc_msg := "build_coupling_map" |} /\
  Sample.run (Sample.call_with 7 (Some Sample.failing_descriptor) None)
    = Raises {| exc_class := "AttributeError"; exc_msg := "build_coupling_map" |} /\
  Sample.run (Sample.call_with 7 None (Some Sample.five_qubit_target))
    = Raises (ValueError "Invalid optimization level 7").
Proof.
  split; [| split].
  - apply (proj1 (resolution_precedes_level_check Sample.accessors
                    (from_backend_model Sample.backend_accessors) Sample.builders
                    (Sample.call_with 7 None (Some Sample.failing_descriptor)))).
    reflexivity.
  - apply (proj1 (proj2 (proj2 (resolution_precedes_level_check Sample.accessors
                    (from_backend_model Sample.backend_accessors) Sample.builders
                    (Sample.call_with 7 (Some Sample.failing_descriptor) None))))
             Sample.failing_descriptor
             (Sample.call_with 7 (Some Sample.failing_descriptor) None)).
    + reflexivity.
    + reflexivity.
    + reflexivity.
  - assert (Hlevel : ~ In 7%Z [0; 1; 2; 3]%Z).
    { simpl. intros [H | [H | [H | [H | []]]]]; discriminate H. }
    eapply (proj1 (proj2 (proj2 (proj2 (proj2
              (resolution_precedes_level_check Sample.accessors
                 (from_backend_model Sample.backend_accessors) Sample.builders
                 (Sample.call_with 7 None (Some Sample.five_qubit_target))))))
              Hlevel)).
    reflexivity.
Defined.

(** ** Fields no descriptor supplies *)

Lemma passes_through_kept {D : Domain} (a : Args.t) (opts cfg : PassManagerConfig) :
  passes_through a opts -> same_config_otherwise opts cfg -> passes_through a cfg.
Proof.
  unfold passes_through, same_config_otherwise.
  intros (P1 & P2 & P3 & P4 & P5 & P6 & P7 & P8 & P9)
         (_ & S1 & S2 & S3 & S4 & S5 & S6 & S7 & S8 & S9).
  rewrite S1, S2, S3, S4, S5, S6, S7, S8, S9. tauto.
Qed.

(** C6.  The layout, routing, translation and scheduling methods, the
    unitary synthesis method, the approximation degree, the seed, the
    initial layout and the plugin configuration are, in the resolved
    configuration, the values of the call: in the options the function
    hands on after the target step, and in the configuration it gets back,
    with or without a target or a backend.  Resolution returns when the
    descriptors answer. *)
Theorem non_derived_fields_pass_through {D : Domain} (T : TargetAccessors outcome)
  (B : BackendAccessors outcome) (a : Args.t) :
  (forall a', fill_from_target T a = Returns a' ->
     passes_through a (pm_options a')) /\
  (forall fb cfg, Args.backend a = None ->
     resolve_config T fb a = Returns cfg -> passes_through a cfg) /\
  (forall cfg, resolve_config T (from_backend_model B) a = Returns cfg ->
     passes_through a cfg) /\
  (target_answers T a -> backend_answers B a ->
   returns (resolve_config T (from_backend_model B) a)).
Proof.
  split; [| split; [| split]].
  - intros a' Hfill. apply fill_from_target_returns in Hfill.
    apply pm_options_passes_through. exact (proj1 Hfill).
  - intros fb cfg Hb H. unfold resolve_config in H.
    apply bind_returns in H. destruct H as (a' & Hfill & Hbuild).
    apply fill_from_target_returns in Hfill. destruct Hfill as (Hsame & _).
    unfold build_config in Hbuild.
    pose proof Hsame as (_ & Hb' & _). rewrite Hb', Hb in Hbuild.
    injection Hbuild as <-. apply pm_options_passes_through. exact Hsame.
  - intros cfg H. apply resolve_config_returns in H.
    destruct H as (a' & Hsame & _ & Hcfg).
    pose proof (pm_options_passes_through Hsame) as Hpass.
    destruct (Args.backend a) as [b |].
    + exact (passes_through_kept Hpass (proj1 Hcfg)).
    + subst cfg. exact Hpass.
  - apply resolve_config_answers.
Qed.

Lemma non_derived_fields_pass_through_witness :
  exists cfg,
    Sample.resolve (Sample.call_with_basis 1 (Some Sample.five_qubit_backend))
      = Returns cfg /\
    routing_method cfg = Some "sabre" /\
    seed_transpiler cfg = Some 42%Z /\
    unitary_synthesis_method cfg = "default" /\
    layout_method cfg = None.
Proof.
  pose proof (non_derived_fields_pass_through Sample.accessors
                Sample.backend_accessors
                (Sample.call_with_basis 1 (Some Sample.five_qubit_backend)))
    as (_ & _ & Hpass & Hret).
  destruct Hret as (cfg & Hcfg).
  - simpl. repeat split; eexists; reflexivity.
  - simpl. repeat split; eexists; reflexivity.
  - exists cfg. split; [exact Hcfg |].
    destruct (Hpass cfg Hcfg) as (P1 & P2 & _ & _ & P5 & _ & P7 & _).
    rewrite P1, P2, P5, P7. repeat split.
Defined.

(** ** Runs as relations: single outcomes *)

Section RelFacts.
Variables A B : Type.

Lemma functional_ret (a : A) : functional (ret a : Rel A).
Proof. intros o1 o2 H1 H2. simpl in H1, H2. congruence. Qed.

Lemma functional_raise (e : exception) : functional (raise e : Rel A).
Proof. intros o1 o2 H1 H2. simpl in H1, H2. congruence. Qed.

Lemma functional_graph (x : outcome A) : functional (graph x).
Proof. intros o1 o2 H1 H2. unfold graph in H1, H2. congruence. Qed.

Lemma functional_bind (m : Rel A) (k : A -> Rel B) :
  functional m -> (forall a, functional (k a)) -> functional (bind m k).
Proof.
  intros Hm Hk o1 o2 H1 H2. simpl in H1, H2.
  destruct H1 as [(a1 & M1 & K1) | (e1 & M1 & ->)];
    destruct H2 as [(a2 & M2 & K2) | (e2 & M2 & ->)];
    pose proof (Hm _ _ M1 M2) as E.
  - injection E as ->. exact (Hk a2 _ _ K1 K2).
  - discriminate E.
  - discriminate E.
  - injection E as ->. reflexivity.
Qed.

Lemma functional_if_none (x : option A) (call : Rel (option A)) :
  functional call -> functional (if_none x call).
Proof.
  intros Hc. destruct x as [v |]; simpl.
  - intros o1 o2 H1 H2. congruence.
  - exact Hc.
Qed.

Lemma runs_to_functional (r : Rel A) (x : outcome A) : runs_to r x -> functional r.
Proof.
  intros H o1 o2 H1 H2. apply H in H1, H2. congruence.
Qed.

Lemma runs_to_graph (x : outcome A) : runs_to (graph x) x.
Proof. intros o. reflexivity. Qed.

Lemma runs_to_ret (a : A) : runs_to (ret a) (ret a).
Proof. intros o. reflexivity. Qed.

Lemma runs_to_raise (e : exception) : runs_to (raise e : Rel A) (raise e).
Proof. intros o. reflexivity. Qed.

Lemma runs_to_bind (m : Rel A) (k : A -> Rel B) (x : outcome A)
  (f : A -> outcome B) :
  runs_to m x -> (forall a, runs_to (k a) (f a)) -> runs_to (bind m k) (bind x f).
Proof.
  intros Hm Hk o. simpl. split.
  - intros [(a & Ma & Ka) | (e & Me & ->)].
    + apply Hm in Ma. subst x. apply Hk. exact Ka.
    + apply Hm in Me. subst x. reflexivity.
  - intros ->. destruct x as [e | a].
    + right. exists e. split; [apply Hm |]; reflexivity.
    + left. exists a. split; [apply Hm; reflexivity | apply Hk; reflexivity].
Qed.

Lemma runs_to_if_none (x : option A) (call : Rel (option A))
  (c : outcome (option A)) :
  runs_to call c -> runs_to (if_none x call) (if_none x c).
Proof.
  intros Hc. destruct x as [v |]; simpl.
  - intros o. reflexivity.
  - exact Hc.
Qed.

End RelFacts.

Section Runs.
Context {D : Domain}.

Lemma resolve_config_functional (T : TargetAccessors Rel)
  (fb : Backend -> PassManagerConfig -> Rel PassManagerConfig) (a : Args.t) :
  functional_accessors T -> (forall b opts, functional (fb b opts)) ->
  functional (resolve_config T fb a).
Proof.
  intros (T1 & T2 & T3 & T4 & T5 & T6) Hfb.
  unfold resolve_config. apply functional_bind.
  - unfold fill_from_target. destruct (Args.target a) as [t |].
    + repeat (apply functional_bind;
              [apply functional_if_none; auto | intros ?]).
      apply functional_ret.
    + apply functional_ret.
  - intros a'. unfold build_config. destruct (Args.backend a') as [b |].
    + apply Hfb.
    + apply functional_ret.
Qed.

Lemma generate_functional (T : TargetAccessors Rel)
  (fb : Backend -> PassManagerConfig -> Rel PassManagerConfig)
  (L : LevelBuilders Rel) (a : Args.t) :
  functional_accessors T -> (forall b opts, functional (fb b opts)) ->
  functional_builders L ->
  functional (generate_preset_pass_manager T fb L a).
Proof.
  intros HT Hfb (L0 & L1 & L2 & L3).
  unfold generate_preset_pass_manager.
  apply functional_bind; [apply resolve_config_functional; assumption |].
  intros cfg. unfold dispatch.
  repeat match goal with
         | |- functional (if ?c then _ else _) => destruct c
         end; auto.
  apply functional_raise.
Qed.

(** On collaborators that are functions, the runs of the program are the
    value it computes. *)
Lemma resolve_config_runs_to (T : TargetAccessors outcome)
  (fb : Backend -> PassManagerConfig -> outcome PassManagerConfig) (a : Args.t) :
  runs_to
    (resolve_config (graph_accessors T) (fun b opts => graph (fb b opts)) a)
    (resolve_config T fb a).
Proof.
  unfold resolve_config. apply runs_to_bind.
  - unfold fill_from_target. destruct (Args.target a) as [t |].
    + repeat (apply runs_to_bind;
              [apply runs_to_if_none; apply runs_to_graph | intros ?]).
      apply runs_to_ret.
    + apply runs_to_ret.
  - intros a'. unfold build_config. destruct (Args.backend a') as [b |].
    + apply runs_to_graph.
    + apply runs_to_ret.
Qed.

Lemma generate_runs_to (T : TargetAccessors outcome)
  (fb : Backend -> PassManagerConfig -> outcome PassManagerConfig)
  (L : LevelBuilders outcome) (a : Args.t) :
  runs_to
    (generate_preset_pass_manager (graph_accessors T)
       (fun b opts => graph (fb b opts)) (graph_builders L) a)
    (generate_preset_pass_manager T fb L a).
Proof.
  unfold generate_preset_pass_manager.
  apply runs_to_bind; [apply resolve_config_runs_to |].
  intros cfg. unfold dispatch.
  repeat match goal with
         | |- runs_to (if ?c then _ else _) _ => destruct c
         end; first [apply runs_to_graph | apply runs_to_raise].
Qed.

Lemma graph_accessors_functional (T : TargetAccessors outcome) :
  functional_accessors (graph_accessors T).
Proof. repeat split; intros t; apply functional_graph. Qed.

Lemma graph_builders_functional (L : LevelBuilders outcome) :
  functional_builders (graph_builders L).
Proof. repeat split; intros c; apply functional_graph. Qed.

End Runs.

(** ** Exceptions of the resolution *)

(** C7.  The resolution raises nothing of its own: an exception it ends
    with was raised by an accessor of the target or by [from_backend] (in
    the model, by an accessor of the backend).  It returns for every
    combination of arguments when the descriptors answer, and without a
    descriptor it returns the options of the call as they are, whatever the
    method selectors hold: no selector is compared with anything before the
    builders receive the configuration.  Its outcome is a function of the
    arguments and of what the collaborators answer: when each of them has a
    single outcome, so has the resolution. *)
Theorem resolver_raises_nothing_itself {D : Domain} (T : TargetAccessors outcome)
  (B : BackendAccessors outcome) (a : Args.t) :
  (forall fb e, resolve_config T fb a = Raises e ->
     (exists t, Args.target a = Some t /\ raised_by_target T t e) \/
     (exists b opts, Args.backend a = Some b /\ fb b opts = Raises e)) /\
  (forall e, resolve_config T (from_backend_model B) a = Raises e ->
     (exists t, Args.target a = Some t /\ raised_by_target T t e) \/
     (exists b, Args.backend a = Some b /\ raised_by_backend B b e)) /\
  (forall fb, target_answers T a -> (forall b opts, returns (fb b opts)) ->
     returns (resolve_config T fb a)) /\
  (target_answers T a -> backend_answers B a ->
   returns (resolve_config T (from_backend_model B) a)) /\
  (forall fb, Args.target a = None -> Args.backend a = None ->
     resolve_config T fb a = Returns (pm_options a)) /\
  (forall (T' : TargetAccessors Rel)
          (fb : Backend -> PassManagerConfig -> Rel PassManagerConfig),
     functional_accessors T' -> (forall b opts, functional (fb b opts)) ->
     forall o1 o2, resolve_config T' fb a o1 -> resolve_config T' fb a o2 ->
                   o1 = o2).
Proof.
  assert (Hgen : forall fb e, resolve_config T fb a = Raises e ->
     (exists t, Args.target a = Some t /\ raised_by_target T t e) \/
     (exists b opts, Args.backend a = Some b /\ fb b opts = Raises e)).
  { intros fb e H. unfold resolve_config in H.
    apply bind_raises in H. destruct H as [H | (a' & Hfill & H)].
    - left. apply fill_from_target_raises. exact H.
    - right. apply fill_from_target_returns in Hfill.
      destruct Hfill as ((_ & Hb & _) & _).
      unfold build_config in H. rewrite Hb in H.
      destruct (Args.backend a) as [b |]; [| discriminate H].
      exists b, (pm_options a'). split; [reflexivity | exact H]. }
  split; [exact Hgen |]. split; [| split; [| split; [| split]]].
  - intros e H. destruct (Hgen _ e H) as [Ht | (b & opts & Hb & Hfb)].
    + left. exact Ht.
    + right. exists b. split; [exact Hb |].
      exact (from_backend_model_raises B b opts Hfb).
  - intros fb Ht Hfb. unfold resolve_config.
    destruct (fill_from_target_answers T a Ht) as (a' & ->). simpl.
    unfold build_config. destruct (Args.backend a') as [b |].
    + apply Hfb.
    + eexists. reflexivity.
  - apply resolve_config_answers.
  - intros fb Ht Hb. unfold resolve_config, fill_from_target, build_config.
    rewrite Ht. simpl. rewrite Hb. reflexivity.
  - intros T' fb HT Hfb. exact (@resolve_config_functional D T' fb a HT Hfb).
Qed.

(** [generate_preset_pass_manager(0, routing_method="bogus")]. *)
Lemma resolver_raises_nothing_itself_witness :
  exists a : @Args.t Sample.domain,
    Args.routing_method a = Some "bogus" /\
    Sample.resolve a = Returns (pm_options a) /\
    Sample.run a = Raises (Sample.UnsupportedMethod "routing_method" "bogus").
Proof.
  exists (@Args.make Sample.domain 0 None None None None None None None None
            None None (Some "bogus") None None None None "default" None).
  split; [reflexivity |]. split; [| reflexivity].
  apply (proj1 (proj2 (proj2 (proj2 (proj2 (resolver_raises_nothing_itself Sample.accessors
           Sample.backend_accessors
           (@Args.make Sample.domain 0 None None None None None None None None
              None None (Some "bogus") None None None None "default" None))))))
           (from_backend_model Sample.backend_accessors) eq_refl eq_refl).
Defined.

(** ** Determinism *)

(** C8.  When every collaborator has a single outcome on given arguments
    (the accessors of the target, [from_backend], the four builders), two
    runs of [generate_preset_pass_manager] on the same arguments end the
    same way: with equal pipelines when they return, with the same
    exception when they raise.  The function adds no source of difference
    of its own. *)
Theorem generate_deterministic {D : Domain} (T : TargetAccessors Rel)
  (from_backend : Backend -> PassManagerConfig -> Rel PassManagerConfig)
  (L : LevelBuilders Rel) (a : Args.t) :
  functional_accessors T ->
  (forall b opts, functional (from_backend b opts)) ->
  functional_builders L ->
  (forall o1 o2,
     generate_preset_pass_manager T from_backend L a o1 ->
     generate_preset_pass_manager T from_backend L a o2 -> o1 = o2) /\
  (forall p1 p2,
     generate_preset_pass_manager T from_backend L a (Returns p1) ->
     generate_preset_pass_manager T from_backend L a (Returns p2) -> p1 = p2).
Proof.
  intros HT Hfb HL.
  pose proof (@generate_functional D T from_backend L a HT Hfb HL) as Hfun.
  split; [exact Hfun |].
  intros p1 p2 H1 H2. pose proof (Hfun _ _ H1 H2) as E.
  injection E as ->. reflexivity.
Qed.

Lemma generate_deterministic_witness :
  generate_preset_pass_manager (graph_accessors Sample.accessors)
    (fun b opts => graph (from_backend_model Sample.backend_accessors b opts))
    (graph_builders Sample.builders) (Sample.call_with_basis 2 None)
    (Returns ["layout"; "routing"; "translation"; "optimization"; "optimization"]) /\
  (forall p,
     generate_preset_pass_manager (graph_accessors Sample.accessors)
       (fun b opts => graph (from_backend_model Sample.backend_accessors b opts))
       (graph_builders Sample.builders) (Sample.call_with_basis 2 None)
       (Returns p) ->
     p = ["layout"; "routing"; "translation"; "optimization"; "optimization"]).
Proof.
  assert (Hrun :
    generate_preset_pass_manager (graph_accessors Sample.accessors)
      (fun b opts => graph (from_backend_model Sample.backend_accessors b opts))
      (graph_builders Sample.builders) (Sample.call_with_basis 2 None)
      (Returns ["layout"; "routing"; "translation"; "optimization"; "optimization"])).
  { apply generate_runs_to. reflexivity. }
  split; [exact Hrun |].
  intros p Hp.
  apply (proj2 (@generate_deterministic Sample.domain _ _ _
                  (Sample.call_with_basis 2 None)
                  (graph_accessors_functional Sample.accessors)
                  (fun b opts => @functional_graph _
                     (from_backend_model Sample.backend_accessors b opts))
                  (graph_builders_functional Sample.builders)) p _ Hp Hrun).
Defined.

(** A builder with two possible pipelines makes two runs differ: the
    hypothesis on the collaborators cannot be dropped. *)
Lemma two_outcomes_without_functional_builders :
  exists (L : @LevelBuilders Sample.domain Rel) o1 o2,
    generate_preset_pass_manager (graph_accessors Sample.accessors)
      (fun b opts => graph (from_backend_model Sample.backend_accessors b opts))
      L (Sample.call_with_basis 0 None) o1 /\
    generate_preset_pass_manager (graph_accessors Sample.accessors)
      (fun b opts => graph (from_backend_model Sample.backend_accessors b opts))
      L (Sample.call_with_basis 0 None) o2 /\
    o1 <> o2.
Proof.
  exists (@Build_LevelBuilders Sample.domain Rel
            (fun _ o => o = Returns ["layout"] \/ o = Returns ["routing"])
            (fun _ o => False) (fun _ o => False) (fun _ o => False)).
  exists (Returns ["layout"]), (Returns ["routing"]).
  split; [| split; [| discriminate]].
  - left. eexists. split.
    + apply resolve_config_runs_to. reflexivity.
    + left. reflexivity.
  - left. eexists. split.
    + apply resolve_config_runs_to. reflexivity.
    + right. reflexivity.
Qed.

(** ** The mock devices *)

(** The directories of the two modules as installed. *)
Example mock_directories :
  Mock.dirname (Mock.FakeLondon Mock.london_file)
    = "qiskit/test/mock/backends/london" /\
  Mock.dirname (Mock.FakeMontrealV2 Mock.montreal_file)
    = "qiskit/test/mock/backends/montreal".
Proof. split; reflexivity. Qed.

(** * Further properties *)

(** ** The precedence of values without a backend *)

Section WithoutBackend.
Context {D : Domain}.
Variable T : TargetAccessors outcome.
Variable from_backend : Backend -> PassManagerConfig -> outcome PassManagerConfig.

Lemma filled_if_none (A : Type) (x r : option A) (c : outcome (option A)) :
  filled x (Some c) r -> if_none x c = Returns r.
Proof.
  destruct x as [v |]; simpl; intros H.
  - rewrite H. reflexivity.
  - exact H.
Qed.

Lemma filled_unconsulted (A : Type) (x r : option A) : filled x None r -> r = x.
Proof. destruct x as [v |]; simpl; intros H; exact H. Qed.

Lemma filled_again (A : Type) (x r : option A) (call : option (outcome (option A))) :
  filled x call r -> filled r call r.
Proof.
  destruct x as [v |]; simpl.
  - intros ->. reflexivity.
  - destruct call as [c |]; intros H.
    + destruct r as [w |]; [reflexivity | exact H].
    + rewrite H. reflexivity.
Qed.

Lemma no_backend_elim (a : Args.t) (cfg : PassManagerConfig) :
  Args.backend a = None ->
  resolve_config T from_backend a = Returns cfg ->
  derived_fields T a cfg /\ target cfg = Args.target a /\ passes_through a cfg.
Proof.
  intros Hb H. unfold resolve_config in H.
  apply bind_returns in H. destruct H as (a' & Hfill & Hbuild).
  apply fill_from_target_returns in Hfill. destruct Hfill as (Hsame & Hder).
  unfold build_config in Hbuild.
  pose proof Hsame as (_ & Hb' & Ht' & _). rewrite Hb', Hb in Hbuild.
  injection Hbuild as <-.
  split; [exact Hder |]. split; [exact Ht' |].
  apply pm_options_passes_through. exact Hsame.
Qed.

Lemma no_backend_intro (a : Args.t) (cfg : PassManagerConfig) :
  Args.backend a = None ->
  derived_fields T a cfg -> target cfg = Args.target a -> passes_through a cfg ->
  resolve_config T from_backend a = Returns cfg.
Proof.
  intros Hb (F1 & F2 & F3 & F4 & F5 & F6) Ht
         (P1 & P2 & P3 & P4 & P5 & P6 & P7 & P8 & P9).
  unfold resolve_config, fill_from_target.
  destruct (Args.target a) as [t |] eqn:Hta; simpl in F1, F2, F3, F4, F5, F6.
  - rewrite (filled_if_none _ _ _ F1), (filled_if_none _ _ _ F2),
      (filled_if_none _ _ _ F3), (filled_if_none _ _ _ F4),
      (filled_if_none _ _ _ F5), (filled_if_none _ _ _ F6).
    simpl. unfold build_config. simpl. rewrite Hb.
    unfold pm_options. simpl.
    rewrite <- Ht, <- P1, <- P2, <- P3, <- P4, <- P5, <- P6, <- P7, <- P8, <- P9.
    destruct cfg. reflexivity.
  - apply filled_unconsulted in F1, F2, F3, F4, F5, F6.
    simpl. unfold build_config. rewrite Hb.
    unfold pm_options.
    rewrite Hta, <- Ht, <- F1, <- F2, <- F3, <- F4, <- F5, <- F6,
      <- P1, <- P2, <- P3, <- P4, <- P5, <- P6, <- P7, <- P8, <- P9.
    destruct cfg. reflexivity.
Qed.

End WithoutBackend.

(** X1.  Without a backend the call resolves to [cfg] exactly when, for
    each of the six derivable parameters, the field of [cfg] is the value
    passed, or else what the accessor of the target returned, or else
    [None] when there is no target, and the other fields of [cfg] are those
    of the call, its target included.  Overrides and target may be mixed
    freely, parameter by parameter. *)
Theorem resolution_without_backend {D : Domain} (T : TargetAccessors outcome)
  (from_backend : Backend -> PassManagerConfig -> outcome PassManagerConfig)
  (a : Args.t) :
  Args.backend a = None ->
  forall cfg,
    resolve_config T from_backend a = Returns cfg <->
    (derived_fields T a cfg /\ target cfg = Args.target a /\ passes_through a cfg).
Proof.
  intros Hb cfg. split.
  - apply no_backend_elim. exact Hb.
  - intros (Hd & Ht & Hp). apply no_backend_intro; assumption.
Qed.

Lemma resolution_without_backend_witness :
  exists cfg,
    Sample.resolve (Sample.call_with_basis 0 None) = Returns cfg /\
    basis_gates cfg = Some ["u3"; "cx"] /\
    Returns (coupling_map cfg) = Sample.connectivity Sample.five_qubit_target /\
    inst_map cfg = None.
Proof.
  eexists. split.
  - apply (proj2 (@resolution_without_backend Sample.domain Sample.accessors
                    (from_backend_model Sample.backend_accessors)
                    (Sample.call_with_basis 0 None) eq_refl
                    (pm_options (@Args.make Sample.domain 0 None
                       (Some Sample.five_qubit_target) (Some ["u3"; "cx"]) None
                       (Some [(0, 1); (1, 0); (1, 2); (2, 1); (1, 3); (3, 1); (3, 4); (4, 3)]%nat)
                       (Some [("sx", 160%nat); ("cx", 1408%nat)]) None (Some 16%nat)
                       None None (Some "sabre") None None None (Some 42%Z)
                       "default" None)))).
    unfold derived_fields, passes_through. simpl. repeat split.
  - simpl. repeat split.
Defined.

(** X2.  Without a backend, resolving again with the six derived fields of
    a resolved configuration passed explicitly gives the same configuration:
    a value once derived is kept, and a field the target left absent is
    left absent again. *)
Theorem resolution_idempotent {D : Domain} (T : TargetAccessors outcome)
  (from_backend : Backend -> PassManagerConfig -> outcome PassManagerConfig)
  (a : Args.t) (cfg : PassManagerConfig) :
  Args.backend a = None ->
  resolve_config T from_backend a = Returns cfg ->
  resolve_config T from_backend (with_resolved cfg a) = Returns cfg.
Proof.
  intros Hb H.
  destruct (no_backend_elim T from_backend a Hb H)
    as ((F1 & F2 & F3 & F4 & F5 & F6) & Ht & Hp).
  apply no_backend_intro.
  - exact Hb.
  - unfold derived_fields. simpl.
    repeat split; eapply filled_again; eassumption.
  - exact Ht.
  - exact Hp.
Qed.

Lemma resolution_idempotent_witness :
  exists cfg,
    Sample.resolve (Sample.call_with 1 None (Some Sample.five_qubit_target))
      = Returns cfg /\
    inst_map cfg = None /\
    Sample.resolve
      (with_resolved cfg (Sample.call_with 1 None (Some Sample.five_qubit_target)))
      = Returns cfg.
Proof.
  eexists. split; [reflexivity |]. split; [reflexivity |].
  apply (@resolution_idempotent Sample.domain Sample.accessors
           (from_backend_model Sample.backend_accessors)
           (Sample.call_with 1 None (Some Sample.five_qubit_target))).
  - reflexivity.
  - reflexivity.
Defined.

(** ** Which exception the target step raises *)

Section FirstFailure.
Context {D : Domain}.
Variable T : TargetAccessors outcome.

Lemma attempt_if_none (A : Type) (x : option A) (c : outcome (option A)) :
  attempt x c = match if_none x c with
                | inl e => Some e
                | inr _ => None
                end.
Proof. destruct x as [v |]; [reflexivity | destruct c; reflexivity]. Qed.

(** The target step raises the first exception of its six attempts, and
    returns when there is none. *)
Lemma fill_from_target_first_raised (a : Args.t) (t : Target) :
  Args.target a = Some t ->
  match first_raised (target_attempts T a t) with
  | Some e => fill_from_target T a = Raises e
  | None => returns (fill_from_target T a)
  end.
Proof.
  intros Ht. unfold target_attempts, fill_from_target. rewrite Ht.
  rewrite !attempt_if_none.
  destruct (if_none (Args.coupling_map a) (target_build_coupling_map T t))
    as [e1 | v1]; [reflexivity |].
  destruct (if_none (Args.basis_gates a) (target_operation_names T t))
    as [e2 | v2]; [reflexivity |].
  destruct (if_none (Args.instruction_durations a) (target_durations T t))
    as [e3 | v3]; [reflexivity |].
  destruct (if_none (Args.inst_map a) (target_instruction_schedule_map T t))
    as [e4 | v4]; [reflexivity |].
  destruct (if_none (Args.timing_constraints a) (target_timing_constraints T t))
    as [e5 | v5]; [reflexivity |].
  destruct (if_none (Args.backend_properties a) (target_to_backend_properties T t))
    as [e6 | v6]; [reflexivity |].
  simpl. eexists. reflexivity.
Qed.

End FirstFailure.

(** X3.  With a target, the six guarded calls are made in the order coupling
    map, operation names, durations, instruction schedule map, timing
    constraints, backend properties, and the call raises the exception of
    the first of them that raises: the accessors of parameters that were
    passed do not count, nor do those after the first failure.  The target
    step returns exactly when none of them raises. *)
Theorem first_failure_wins {D : Domain} (T : TargetAccessors outcome)
  (from_backend : Backend -> PassManagerConfig -> outcome PassManagerConfig)
  (L : LevelBuilders outcome) (a : Args.t) (t : Target) :
  Args.target a = Some t ->
  (forall e, first_raised (target_attempts T a t) = Some e <->
             fill_from_target T a = Raises e) /\
  (forall e, first_raised (target_attempts T a t) = Some e ->
             resolve_config T from_backend a = Raises e /\
             generate_preset_pass_manager T from_backend L a = Raises e) /\
  (first_raised (target_attempts T a t) = None <->
   returns (fill_from_target T a)).
Proof.
  intros Ht.
  pose proof (fill_from_target_first_raised T a Ht) as H.
  destruct (first_raised (target_attempts T a t)) as [e0 |].
  - split; [| split].
    + intros e. split.
      * intros E. injection E as <-. exact H.
      * intros E. rewrite H in E. injection E as <-. reflexivity.
    + intros e E. injection E as <-.
      assert (Hres : resolve_config T from_backend a = Raises e0).
      { unfold resolve_config. rewrite H. reflexivity. }
      split; [exact Hres |].
      apply generate_resolution_raises. exact Hres.
    + split; [intros E; discriminate E |].
      intros (a' & E). rewrite H in E. discriminate E.
  - split; [| split].
    + intros e. split; [intros E; discriminate E |].
      intros E. destruct H as (a' & H). rewrite H in E. discriminate E.
    + intros e E. discriminate E.
    + split; [intros _; exact H | reflexivity].
Qed.

Lemma first_failure_wins_witness :
  Sample.run (call_on_two_failures None)
    = Raises {| exc_class := "KeyError"; exc_msg := "operation_names" |} /\
  Sample.run (call_on_two_failures (Some ["cx"]))
    = Raises {| exc_class := "PulseError"; exc_msg := "instruction_schedule_map" |}.
Proof.
  split.
  - apply (proj1 (proj2 (@first_failure_wins Sample.domain Sample.accessors
                    (from_backend_model Sample.backend_accessors) Sample.builders
                    (call_on_two_failures None) two_failures eq_refl))).
    reflexivity.
  - apply (proj1 (proj2 (@first_failure_wins Sample.domain Sample.accessors
                    (from_backend_model Sample.backend_accessors) Sample.builders
                    (call_on_two_failures (Some ["cx"])) two_failures eq_refl))).
    reflexivity.
Defined.

(** ** The calls a run makes *)

Section Subsequences.
Variable A : Type.

Lemma subseq_nil_l (l : list A) : subseq [] l.
Proof. induction l as [| x l IH]; constructor; exact IH. Qed.

Lemma subseq_refl (l : list A) : subseq l l.
Proof. induction l as [| x l IH]; constructor; exact IH. Qed.

Lemma subseq_app (l1 l1' l2 l2' : list A) :
  subseq l1 l1' -> subseq l2 l2' -> subseq (l1 ++ l2) (l1' ++ l2').
Proof.
  intros H1 H2. induction H1 as [| x k1 k2 _ IH | x k1 k2 _ IH]; simpl.
  - exact H2.
  - apply subseq_take. exact IH.
  - apply subseq_skip. exact IH.
Qed.

Lemma subseq_In (l1 l2 : list A) (x : A) : subseq l1 l2 -> In x l1 -> In x l2.
Proof.
  intros H. induction H as [| y k1 k2 _ IH | y k1 k2 _ IH]; simpl.
  - intros [].
  - intros [E | Hin]; [left; exact E | right; apply IH; exact Hin].
  - intros Hin. right. apply IH. exact Hin.
Qed.

Lemma subseq_NoDup (l1 l2 : list A) : subseq l1 l2 -> NoDup l2 -> NoDup l1.
Proof.
  intros H. induction H as [| y k1 k2 Hs IH | y k1 k2 _ IH]; intros Hnd.
  - constructor.
  - inversion Hnd as [| ? ? Hnotin Hrest]; subst. constructor.
    + intros Hin. apply Hnotin. exact (subseq_In y Hs Hin).
    + apply IH. exact Hrest.
  - inversion Hnd as [| ? ? _ Hrest]; subst. apply IH. exact Hrest.
Qed.

End Subsequences.

Section CallLog.
Context {D : Domain}.
Variable T : TargetAccessors outcome.
Variable from_backend : Backend -> PassManagerConfig -> outcome PassManagerConfig.
Variable L : LevelBuilders outcome.

Lemma if_none_logging (A : Type) (x : option A) (ev : call) (c : outcome (option A)) :
  if_none x (logging ev c) = (step_calls x ev, if_none x c).
Proof. destruct x as [v |]; reflexivity. Qed.

(** The target step, logged: its calls and its outcome. *)
Lemma fill_from_target_logged (a : Args.t) :
  fill_from_target (logged_accessors T) a = (target_calls T a, fill_from_target T a).
Proof.
  unfold fill_from_target, target_calls.
  destruct (Args.target a) as [t |]; [| reflexivity].
  unfold logged_accessors. cbn [target_build_coupling_map target_operation_names
    target_durations target_instruction_schedule_map target_timing_constraints
    target_to_backend_properties].
  rewrite !if_none_logging.
  destruct (if_none (Args.coupling_map a) (target_build_coupling_map T t))
    as [e1 | v1]; [simpl; rewrite ?app_nil_r; reflexivity |].
  destruct (if_none (Args.basis_gates a) (target_operation_names T t))
    as [e2 | v2]; [simpl; rewrite ?app_nil_r; reflexivity |].
  destruct (if_none (Args.instruction_durations a) (target_durations T t))
    as [e3 | v3]; [simpl; rewrite ?app_nil_r; reflexivity |].
  destruct (if_none (Args.inst_map a) (target_instruction_schedule_map T t))
    as [e4 | v4]; [simpl; rewrite ?app_nil_r; reflexivity |].
  destruct (if_none (Args.timing_constraints a) (target_timing_constraints T t))
    as [e5 | v5]; [simpl; rewrite ?app_nil_r; reflexivity |].
  destruct (if_none (Args.backend_properties a) (target_to_backend_properties T t))
    as [e6 | v6]; simpl; rewrite ?app_nil_r; reflexivity.
Qed.

Lemma build_config_logged (a' : Args.t) :
  build_config (logged_from_backend from_backend) a'
  = (backend_calls a', build_config from_backend a').
Proof.
  unfold build_config, backend_calls.
  destruct (Args.backend a') as [b |]; reflexivity.
Qed.

Lemma dispatch_logged (level : Z) (cfg : PassManagerConfig) :
  dispatch (logged_builders L) level cfg
  = (builder_calls L level, dispatch L level cfg).
Proof.
  unfold dispatch, builder_calls, builder_for.
  destruct level as [| p | p]; [reflexivity | | reflexivity].
  destruct p as [[q | q |] | [q | q |] |]; reflexivity.
Qed.

(** The whole run, logged: its calls and its outcome. *)
Lemma logged_run_expected (a : Args.t) :
  logged_run T from_backend L a
  = (expected_calls T from_backend L a,
     generate_preset_pass_manager T from_backend L a).
Proof.
  unfold logged_run, generate_preset_pass_manager, resolve_config, expected_calls.
  rewrite fill_from_target_logged.
  destruct (fill_from_target T a) as [e | a'] eqn:Hfill.
  - simpl. rewrite app_nil_r. reflexivity.
  - apply fill_from_target_returns in Hfill.
    destruct Hfill as ((_ & Hb & _) & _).
    cbn [bind Monad_Logged Monad_outcome Monad_either fst snd].
    rewrite build_config_logged.
    unfold backend_calls at 1 2 3. rewrite Hb. fold (backend_calls a).
    destruct (build_config from_backend a') as [e | cfg].
    + simpl. rewrite app_nil_r. reflexivity.
    + cbn [fst snd]. rewrite dispatch_logged. cbn [fst snd].
      rewrite app_assoc. reflexivity.
Qed.

Lemma calls_expected (a : Args.t) :
  calls T from_backend L a = expected_calls T from_backend L a.
Proof. unfold calls. rewrite logged_run_expected. reflexivity. Qed.

End CallLog.

Section CallFacts.
Context {D : Domain}.
Variable T : TargetAccessors outcome.
Variable from_backend : Backend -> PassManagerConfig -> outcome PassManagerConfig.
Variable L : LevelBuilders outcome.

Lemma subseq_step (A : Type) (x : option A) (ev : call) (ok : bool)
  (rest rest' : list call) :
  subseq rest rest' ->
  subseq (step_calls x ev ++ if ok then rest else []) (ev :: rest').
Proof.
  intros H. destruct x as [v |]; destruct ok; simpl;
    constructor; first [exact H | apply subseq_nil_l].
Qed.

Lemma target_calls_subseq (a : Args.t) : subseq (target_calls T a) accessor_calls.
Proof.
  unfold target_calls, accessor_calls.
  destruct (Args.target a) as [t |]; [| apply subseq_nil_l].
  cbn [log_until]. repeat apply subseq_step. constructor.
Qed.

Lemma target_calls_accessor (a : Args.t) (ev : call) :
  In ev (target_calls T a) -> In ev accessor_calls.
Proof. apply subseq_In. apply target_calls_subseq. Qed.

Lemma backend_calls_subseq (a : Args.t) : subseq (backend_calls a) [CallFromBackend].
Proof.
  unfold backend_calls. destruct (Args.backend a) as [b |].
  - apply subseq_refl.
  - apply subseq_nil_l.
Qed.

Lemma builder_calls_subseq (level : Z) :
  subseq (builder_calls L level) [CallLevelBuilder level].
Proof.
  unfold builder_calls. destruct (builder_for L level) as [build |].
  - apply subseq_refl.
  - apply subseq_nil_l.
Qed.

Lemma expected_calls_subseq (a : Args.t) :
  subseq (expected_calls T from_backend L a)
    (source_order (Args.optimization_level a)).
Proof.
  unfold expected_calls, source_order.
  apply subseq_app; [apply target_calls_subseq |].
  destruct (fill_from_target T a) as [e | a']; [apply subseq_nil_l |].
  apply (subseq_app (l1' := [CallFromBackend])
                    (l2' := [CallLevelBuilder (Args.optimization_level a)])).
  - apply backend_calls_subseq.
  - destruct (build_config from_backend a') as [e | cfg].
    + apply subseq_nil_l.
    + apply builder_calls_subseq.
Qed.

Lemma source_order_NoDup (level : Z) : NoDup (source_order level).
Proof.
  unfold source_order, accessor_calls. simpl.
  repeat constructor; simpl; intuition discriminate.
Qed.

End CallFacts.

(** X4.  Recording the calls does not change the outcome, and the calls of
    any run are some of: the six accessors of the target, [from_backend],
    the builder of the level, in this order, which is the order of the
    source.  So no collaborator is called twice, none is called out of
    order, and no builder of another level is ever called. *)
Theorem calls_in_source_order {D : Domain} (T : TargetAccessors outcome)
  (from_backend : Backend -> PassManagerConfig -> outcome PassManagerConfig)
  (L : LevelBuilders outcome) (a : Args.t) :
  snd (logged_run T from_backend L a)
    = generate_preset_pass_manager T from_backend L a /\
  subseq (calls T from_backend L a) (source_order (Args.optimization_level a)) /\
  NoDup (calls T from_backend L a) /\
  (forall k, k <> Args.optimization_level a ->
             ~ In (CallLevelBuilder k) (calls T from_backend L a)).
Proof.
  assert (Hsub : subseq (calls T from_backend L a)
                   (source_order (Args.optimization_level a))).
  { rewrite calls_expected. apply expected_calls_subseq. }
  split; [rewrite logged_run_expected; reflexivity |].
  split; [exact Hsub |]. split.
  - exact (subseq_NoDup Hsub (source_order_NoDup _)).
  - intros k Hk Hin. apply (subseq_In _ Hsub) in Hin.
    unfold source_order, accessor_calls in Hin. simpl in Hin.
    repeat (destruct Hin as [Hin | Hin]; [try discriminate Hin |]).
    + injection Hin as Hin. apply Hk. symmetry. exact Hin.
    + exact Hin.
Qed.

Ltac guarded_step x c := destruct x; [| destruct c]; cbn.

Section AccessorCalls.
Context {D : Domain}.
Variable T : TargetAccessors outcome.
Variable from_backend : Backend -> PassManagerConfig -> outcome PassManagerConfig.
Variable L : LevelBuilders outcome.

(** An accessor call in the log of a run is a call of the target step. *)
Lemma accessor_call_of_target_step (a : Args.t) (ev : call) :
  In ev accessor_calls ->
  In ev (calls T from_backend L a) <-> In ev (target_calls T a).
Proof.
  intros Hacc. rewrite calls_expected. unfold expected_calls. split.
  - intros Hin. apply in_app_or in Hin. destruct Hin as [Hin | Hin]; [exact Hin |].
    exfalso.
    assert (Hrest : In ev [CallFromBackend;
                           CallLevelBuilder (Args.optimization_level a)]).
    { destruct (fill_from_target T a) as [e | a']; [destruct Hin |].
      refine (subseq_In ev _ Hin).
      apply (subseq_app (l1' := [CallFromBackend])
                        (l2' := [CallLevelBuilder (Args.optimization_level a)])).
      - apply backend_calls_subseq.
      - destruct (build_config from_backend a') as [e | cfg].
        + apply subseq_nil_l.
        + apply builder_calls_subseq. }
    unfold accessor_calls in Hacc. simpl in Hacc, Hrest.
    destruct Hrest as [<- | [<- | []]]; intuition discriminate.
  - intros Hin. apply in_or_app. left. exact Hin.
Qed.

(** When each accessor of the target step is called. *)
Lemma target_calls_iff (a : Args.t) (t : Target) :
  Args.target a = Some t ->
  (In CallBuildCouplingMap (target_calls T a) <-> Args.coupling_map a = None) /\
  (In CallOperationNames (target_calls T a) <->
     Args.basis_gates a = None /\
     first_raised (firstn 1 (target_attempts T a t)) = None) /\
  (In CallDurations (target_calls T a) <->
     Args.instruction_durations a = None /\
     first_raised (firstn 2 (target_attempts T a t)) = None) /\
  (In CallInstructionScheduleMap (target_calls T a) <->
     Args.inst_map a = None /\
     first_raised (firstn 3 (target_attempts T a t)) = None) /\
  (In CallTimingConstraints (target_calls T a) <->
     Args.timing_constraints a = None /\
     first_raised (firstn 4 (target_attempts T a t)) = None) /\
  (In CallToBackendProperties (target_calls T a) <->
     Args.backend_properties a = None /\
     first_raised (firstn 5 (target_attempts T a t)) = None).
Proof.
  intros Ht. unfold target_calls, target_attempts. rewrite Ht.
  cbn [firstn].
  guarded_step (Args.coupling_map a) (target_build_coupling_map T t);
    try solve [intuition discriminate];
  guarded_step (Args.basis_gates a) (target_operation_names T t);
    try solve [intuition discriminate];
  guarded_step (Args.instruction_durations a) (target_durations T t);
    try solve [intuition discriminate];
  guarded_step (Args.inst_map a) (target_instruction_schedule_map T t);
    try solve [intuition discriminate];
  guarded_step (Args.timing_constraints a) (target_timing_constraints T t);
    try solve [intuition discriminate];
  guarded_step (Args.backend_properties a) (target_to_backend_properties T t);
    intuition discriminate.
Qed.

End AccessorCalls.

(** X5.  An accessor of the target is called exactly when a target was
    passed, the parameter it can supply was not, and no accessor consulted
    before it, in the order of the source, has raised.  In particular the
    accessor of a parameter that was passed is never called, and without a
    target none is. *)
Theorem accessor_called_iff {D : Domain} (T : TargetAccessors outcome)
  (from_backend : Backend -> PassManagerConfig -> outcome PassManagerConfig)
  (L : LevelBuilders outcome) (a : Args.t) :
  (In CallBuildCouplingMap (calls T from_backend L a) <->
     exists t, Args.target a = Some t /\ Args.coupling_map a = None) /\
  (In CallOperationNames (calls T from_backend L a) <->
     exists t, Args.target a = Some t /\ Args.basis_gates a = None /\
               first_raised (firstn 1 (target_attempts T a t)) = None) /\
  (In CallDurations (calls T from_backend L a) <->
     exists t, Args.target a = Some t /\ Args.instruction_durations a = None /\
               first_raised (firstn 2 (target_attempts T a t)) = None) /\
  (In CallInstructionScheduleMap (calls T from_backend L a) <->
     exists t, Args.target a = Some t /\ Args.inst_map a = None /\
               first_raised (firstn 3 (target_attempts T a t)) = None) /\
  (In CallTimingConstraints (calls T from_backend L a) <->
     exists t, Args.target a = Some t /\ Args.timing_constraints a = None /\
               first_raised (firstn 4 (target_attempts T a t)) = None) /\
  (In CallToBackendProperties (calls T from_backend L a) <->
     exists t, Args.target a = Some t /\ Args.backend_properties a = None /\
               first_raised (firstn 5 (target_attempts T a t)) = None).
Proof.
  rewrite !accessor_call_of_target_step
    by (unfold accessor_calls; simpl; tauto).
  destruct (Args.target a) as [t |] eqn:Ht.
  - destruct (target_calls_iff T a Ht) as (H1 & H2 & H3 & H4 & H5 & H6).
    assert (Hwrap : forall P Q : Prop,
              (P <-> Q) -> (P <-> exists t', Some t = Some t' /\ Q)).
    { intros P Q HPQ. split.
      - intros HP. exists t. split; [reflexivity | apply HPQ; exact HP].
      - intros (t' & _ & HQ). apply HPQ. exact HQ. }
    split; [apply Hwrap; exact H1 |].
    split; [| split; [| split; [| split]]].
    + split.
      * intros Hin. exists t. split; [reflexivity | apply H2; exact Hin].
      * intros (t' & E & HQ). injection E as <-. apply H2. exact HQ.
    + split.
      * intros Hin. exists t. split; [reflexivity | apply H3; exact Hin].
      * intros (t' & E & HQ). injection E as <-. apply H3. exact HQ.
    + split.
      * intros Hin. exists t. split; [reflexivity | apply H4; exact Hin].
      * intros (t' & E & HQ). injection E as <-. apply H4. exact HQ.
    + split.
      * intros Hin. exists t. split; [reflexivity | apply H5; exact Hin].
      * intros (t' & E & HQ). injection E as <-. apply H5. exact HQ.
    + split.
      * intros Hin. exists t. split; [reflexivity | apply H6; exact Hin].
      * intros (t' & E & HQ). injection E as <-. apply H6. exact HQ.
  - unfold target_calls. rewrite Ht. simpl.
    repeat split;
      match goal with
      | |- False -> _ => intros []
      | |- _ => intros (t' & E & _); discriminate E
      end.
Qed.

(** X6.  [from_backend] is called exactly when a backend was passed and the
    target step has returned; it is not called when that step raised, nor
    when there is no backend, in which case the configuration is built
    directly from the options. *)
Theorem from_backend_called_iff {D : Domain} (T : TargetAccessors outcome)
  (from_backend : Backend -> PassManagerConfig -> outcome PassManagerConfig)
  (L : LevelBuilders outcome) (a : Args.t) :
  In CallFromBackend (calls T from_backend L a) <->
  (Args.backend a <> None /\ returns (fill_from_target T a)).
Proof.
  rewrite calls_expected. unfold expected_calls. split.
  - intros Hin. apply in_app_or in Hin. destruct Hin as [Hin | Hin].
    + apply target_calls_accessor in Hin. unfold accessor_calls in Hin.
      simpl in Hin. intuition discriminate.
    + destruct (fill_from_target T a) as [e | a']; [destruct Hin |].
      apply in_app_or in Hin. destruct Hin as [Hin | Hin].
      * split; [| eexists; reflexivity].
        unfold backend_calls in Hin.
        destruct (Args.backend a) as [b |]; [discriminate | destruct Hin].
      * exfalso.
        assert (Hb : In CallFromBackend
                       [CallLevelBuilder (Args.optimization_level a)]).
        { destruct (build_config from_backend a') as [e | cfg]; [destruct Hin |].
          exact (subseq_In _ (builder_calls_subseq L _) Hin). }
        simpl in Hb. intuition discriminate.
  - intros (Hb & (a' & Hfill)). rewrite Hfill.
    apply in_or_app. right. apply in_or_app. left.
    unfold backend_calls. destruct (Args.backend a) as [b |].
    + left. reflexivity.
    + contradiction Hb. reflexivity.
Qed.

(** X7.  The builder of level [k] is called exactly when [k] is the
    [optimization_level] of the call, it is 0, 1, 2 or 3, and the
    configuration resolution has returned.  For an invalid level no builder
    is called at all, and no builder is called on a configuration that was
    not resolved. *)
Theorem builder_called_iff {D : Domain} (T : TargetAccessors outcome)
  (from_backend : Backend -> PassManagerConfig -> outcome PassManagerConfig)
  (L : LevelBuilders outcome) (a : Args.t) (k : Z) :
  In (CallLevelBuilder k) (calls T from_backend L a) <->
  (k = Args.optimization_level a /\
   In (Args.optimization_level a) [0; 1; 2; 3]%Z /\
   returns (resolve_config T from_backend a)).
Proof.
  rewrite calls_expected. unfold expected_calls, resolve_config. split.
  - intros Hin. apply in_app_or in Hin. destruct Hin as [Hin | Hin].
    + apply target_calls_accessor in Hin. unfold accessor_calls in Hin.
      simpl in Hin. intuition discriminate.
    + destruct (fill_from_target T a) as [e | a']; [destruct Hin |].
      apply in_app_or in Hin. destruct Hin as [Hin | Hin].
      * apply (subseq_In _ (backend_calls_subseq a)) in Hin.
        simpl in Hin. intuition discriminate.
      * simpl. destruct (build_config from_backend a') as [e | cfg];
          [destruct Hin |].
        unfold builder_calls in Hin.
        destruct (builder_for L (Args.optimization_level a)) as [build |] eqn:Hb;
          [| destruct Hin].
        destruct Hin as [Hin | []]. injection Hin as <-.
        split; [reflexivity |].
        split; [exact (builder_for_some L _ Hb) | eexists; reflexivity].
  - intros (-> & Hvalid & (cfg & Hres)).
    apply bind_returns in Hres. destruct Hres as (a' & Hfill & Hbuild).
    rewrite Hfill, Hbuild.
    apply in_or_app. right. apply in_or_app. right.
    unfold builder_calls.
    destruct (builder_for_valid L Hvalid) as (build & ->).
    left. reflexivity.
Qed.

Section LastCall.
Context {D : Domain}.
Variable T : TargetAccessors outcome.
Variable from_backend : Backend -> PassManagerConfig -> outcome PassManagerConfig.
Variable L : LevelBuilders outcome.

Ltac raising_step E Hfill Ht l ev :=
  injection Hfill as ->; apply if_none_raises in E;
  let Hx := fresh "Hx" in
  let Hc := fresh "Hc" in
  destruct E as (Hx & Hc); rewrite Hx;
  exists l, ev; split;
  [ cbn; rewrite ?app_nil_r, ?app_assoc; reflexivity
  | eexists; split; [exact Ht | split; [exact Hx | exact Hc]] ].

(** When the target step raises, its last call is the accessor that raised. *)
Lemma target_calls_last (a : Args.t) (t : Target) (e : exception) :
  Args.target a = Some t ->
  fill_from_target T a = Raises e ->
  exists l ev, target_calls T a = (l ++ [ev])%list /\
               call_raised T from_backend L a ev e.
Proof.
  intros Ht Hfill. unfold fill_from_target in Hfill. rewrite Ht in Hfill.
  unfold target_calls. rewrite Ht. cbn [log_until].
  destruct (if_none (Args.coupling_map a) (target_build_coupling_map T t))
    as [e1 | v1] eqn:E1; simpl in Hfill.
  { raising_step E1 Hfill Ht (@nil call) CallBuildCouplingMap. }
  destruct (if_none (Args.basis_gates a) (target_operation_names T t))
    as [e2 | v2] eqn:E2; simpl in Hfill.
  { raising_step E2 Hfill Ht
      (step_calls (Args.coupling_map a) CallBuildCouplingMap) CallOperationNames. }
  destruct (if_none (Args.instruction_durations a) (target_durations T t))
    as [e3 | v3] eqn:E3; simpl in Hfill.
  { raising_step E3 Hfill Ht
      (step_calls (Args.coupling_map a) CallBuildCouplingMap ++
       step_calls (Args.basis_gates a) CallOperationNames)%list CallDurations. }
  destruct (if_none (Args.inst_map a) (target_instruction_schedule_map T t))
    as [e4 | v4] eqn:E4; simpl in Hfill.
  { raising_step E4 Hfill Ht
      ((step_calls (Args.coupling_map a) CallBuildCouplingMap ++
        step_calls (Args.basis_gates a) CallOperationNames) ++
       step_calls (Args.instruction_durations a) CallDurations)%list
      CallInstructionScheduleMap. }
  destruct (if_none (Args.timing_constraints a) (target_timing_constraints T t))
    as [e5 | v5] eqn:E5; simpl in Hfill.
  { raising_step E5 Hfill Ht
      (((step_calls (Args.coupling_map a) CallBuildCouplingMap ++
         step_calls (Args.basis_gates a) CallOperationNames) ++
        step_calls (Args.instruction_durations a) CallDurations) ++
       step_calls (Args.inst_map a) CallInstructionScheduleMap)%list
      CallTimingConstraints. }
  destruct (if_none (Args.backend_properties a) (target_to_backend_properties T t))
    as [e6 | v6] eqn:E6; simpl in Hfill.
  { raising_step E6 Hfill Ht
      ((((step_calls (Args.coupling_map a) CallBuildCouplingMap ++
          step_calls (Args.basis_gates a) CallOperationNames) ++
         step_calls (Args.instruction_durations a) CallDurations) ++
        step_calls (Args.inst_map a) CallInstructionScheduleMap) ++
       step_calls (Args.timing_constraints a) CallTimingConstraints)%list
      CallToBackendProperties. }
  discriminate Hfill.
Qed.

End LastCall.

(** X8.  When the call ends with an exception, the collaborator that raised
    it is the last one called: nothing is called after a failure.  The one
    exception raised without any collaborator failing is the invalid-level
    error, after a resolution that returned. *)
Theorem raising_call_is_last {D : Domain} (T : TargetAccessors outcome)
  (from_backend : Backend -> PassManagerConfig -> outcome PassManagerConfig)
  (L : LevelBuilders outcome) (a : Args.t) (e : exception) :
  generate_preset_pass_manager T from_backend L a = Raises e ->
  (exists l ev, calls T from_backend L a = (l ++ [ev])%list /\
                call_raised T from_backend L a ev e) \/
  (~ In (Args.optimization_level a) [0; 1; 2; 3]%Z /\
   e = InvalidLevel (Args.optimization_level a) /\
   returns (resolve_config T from_backend a)).
Proof.
  intros H. rewrite calls_expected. unfold expected_calls.
  unfold generate_preset_pass_manager in H.
  apply bind_raises in H. destruct H as [H | (cfg & Hres & H)].
  - left. unfold resolve_config in H.
    apply bind_raises in H. destruct H as [H | (a' & Hfill & H)].
    + rewrite H. rewrite app_nil_r.
      destruct (fill_from_target_raises T a H) as (t & Ht & _).
      exact (target_calls_last T from_backend L a Ht H).
    + rewrite Hfill.
      pose proof (fill_from_target_returns T a Hfill) as ((_ & Hb & _) & _).
      rewrite H. rewrite app_nil_r.
      unfold build_config in H. rewrite Hb in H.
      unfold backend_calls.
      destruct (Args.backend a) as [b |] eqn:Hba; [| discriminate H].
      exists (target_calls T a), CallFromBackend. split; [reflexivity |].
      exists b, a'. repeat split; assumption.
  - pose proof Hres as Hres'. unfold resolve_config in Hres'.
    apply bind_returns in Hres'. destruct Hres' as (a' & Hfill & Hbuild).
    rewrite Hfill, Hbuild.
    rewrite dispatch_lookup in H. unfold builder_calls.
    destruct (builder_for L (Args.optimization_level a)) as [build |] eqn:Hb.
    + left.
      exists (target_calls T a ++ backend_calls a)%list,
             (CallLevelBuilder (Args.optimization_level a)).
      split; [rewrite app_assoc; reflexivity |].
      exists build, cfg. repeat split; assumption.
    + right. injection H as <-. split; [| split].
      * intros Hin. destruct (builder_for_valid L Hin) as (build & Hsome).
        rewrite Hsome in Hb. discriminate Hb.
      * reflexivity.
      * exists cfg. exact Hres.
Qed.

Lemma raising_call_is_last_witness :
  calls Sample.accessors (from_backend_model Sample.backend_accessors)
    Sample.builders (call_on_two_failures (Some ["cx"]))
    = [CallBuildCouplingMap; CallDurations; CallInstructionScheduleMap] /\
  exists l ev,
    calls Sample.accessors (from_backend_model Sample.backend_accessors)
      Sample.builders (call_on_two_failures (Some ["cx"])) = (l ++ [ev])%list /\
    call_raised Sample.accessors (from_backend_model Sample.backend_accessors)
      Sample.builders (call_on_two_failures (Some ["cx"])) ev
      {| exc_class := "PulseError"; exc_msg := "instruction_schedule_map" |}.
Proof.
  split; [reflexivity |].
  destruct (@raising_call_is_last Sample.domain Sample.accessors
              (from_backend_model Sample.backend_accessors) Sample.builders
              (call_on_two_failures (Some ["cx"]))
              {| exc_class := "PulseError"; exc_msg := "instruction_schedule_map" |}
              eq_refl) as [Hlast | (Hlevel & _)].
  - exact Hlast.
  - exfalso. apply Hlevel. simpl. tauto.
Defined.

(** The calls of a run with a target, a backend and level 3, none of the
    derivable parameters passed: all eight, in order; with the basis gates
    passed, the operation names are not asked for. *)
Example calls_of_full_runs :
  calls Sample.accessors (from_backend_model Sample.backend_accessors)
    Sample.builders
    (Sample.call_with 3 (Some Sample.five_qubit_backend)
       (Some Sample.five_qubit_target))
    = source_order 3 /\
  calls Sample.accessors (from_backend_model Sample.backend_accessors)
    Sample.builders (Sample.call_with_basis 7 (Some Sample.five_qubit_backend))
    = [CallBuildCouplingMap; CallDurations; CallInstructionScheduleMap;
       CallTimingConstraints; CallToBackendProperties; CallFromBackend].
Proof. split; reflexivity. Qed.

(** ** The directory of a module *)

Section Dirname.
Import Mock.

Lemma has_slash_app_slash (d n : string) : has_slash (d ++ String "/" n) = true.
Proof.
  induction d as [| c d IH]; simpl.
  - reflexivity.
  - rewrite IH. apply orb_true_r.
Qed.

Lemma upto_last_slash_joined (d n : string) :
  has_slash n = false -> upto_last_slash (d ++ String "/" n) = d ++ "/".
Proof.
  intros Hn. induction d as [| c d IH]; simpl.
  - rewrite Hn. reflexivity.
  - rewrite has_slash_app_slash, IH. reflexivity.
Qed.

Lemma upto_last_slash_plain (n : string) :
  has_slash n = false -> upto_last_slash n = "".
Proof.
  destruct n as [| c n]; simpl; [reflexivity |].
  intros H. apply orb_false_elim in H. destruct H as (Hc & Hn).
  rewrite Hn, Hc. reflexivity.
Qed.

Lemma all_slashes_app_slash (d : string) : all_slashes (d ++ "/") = all_slashes d.
Proof.
  induction d as [| c d IH]; simpl.
  - reflexivity.
  - rewrite IH. reflexivity.
Qed.

Lemma rstrip_slashes_app_slash (d : string) :
  rstrip_slashes (d ++ "/") = rstrip_slashes d.
Proof.
  induction d as [| c d IH].
  - reflexivity.
  - change ((String c d) ++ "/") with (String c (d ++ "/")).
    cbn [rstrip_slashes all_slashes].
    rewrite all_slashes_app_slash, IH. reflexivity.
Qed.

Lemma rstrip_all_slashes (d : string) :
  all_slashes d = true -> rstrip_slashes d = "".
Proof.
  destruct d as [| c d]; [reflexivity |].
  intros H. cbn [rstrip_slashes]. rewrite H. reflexivity.
Qed.

Lemma os_path_dirname_joined (dir name : string) :
  has_slash name = false -> dir <> "" -> rstrip_slashes dir = dir ->
  os_path_dirname (dir ++ String "/" name) = dir.
Proof.
  intros Hn Hne Hstrip. unfold os_path_dirname.
  rewrite (@upto_last_slash_joined dir name Hn), all_slashes_app_slash.
  destruct (all_slashes dir) eqn:Hall.
  - rewrite (@rstrip_all_slashes dir Hall) in Hstrip.
    contradiction Hne. symmetry. exact Hstrip.
  - rewrite rstrip_slashes_app_slash. exact Hstrip.
Qed.

End Dirname.

(** X9.  [os.path.dirname(__file__)] gives the directory of the module: for
    a file [name] (no slash in it) under a directory [dir] that is not empty
    and has no trailing slash, the [dirname] attribute of each of the four
    mock classes is [dir], so their data files are looked up beside the
    module.  For a bare file name it is the empty string, and for a file in
    the root it is ["/"]. *)
Theorem dirname_of_module_file (dir name : string) :
  Mock.has_slash name = false ->
  (dir <> "" -> Mock.rstrip_slashes dir = dir ->
   Mock.os_path_dirname (dir ++ "/" ++ name) = dir /\
   Mock.dirname (Mock.FakeLondonV2 (dir ++ "/" ++ name)) = dir /\
   Mock.dirname (Mock.FakeLondon (dir ++ "/" ++ name)) = dir /\
   Mock.dirname (Mock.FakeMontrealV2 (dir ++ "/" ++ name)) = dir /\
   Mock.dirname (Mock.FakeMontreal (dir ++ "/" ++ name)) = dir) /\
  Mock.os_path_dirname name = "" /\
  Mock.os_path_dirname ("/" ++ name) = "/".
Proof.
  intros Hn. split; [| split].
  - intros Hne Hstrip.
    pose proof (@os_path_dirname_joined dir name Hn Hne Hstrip) as H.
    repeat split; exact H.
  - unfold Mock.os_path_dirname.
    rewrite (@upto_last_slash_plain name Hn). reflexivity.
  - change ("/" ++ name) with ("" ++ String "/" name).
    unfold Mock.os_path_dirname.
    rewrite (@upto_last_slash_joined "" name Hn). reflexivity.
Qed.

Lemma dirname_of_module_file_witness :
  Mock.dirname (Mock.FakeLondonV2 Mock.london_file)
    = "qiskit/test/mock/backends/london".
Proof.
  apply (proj1 (@dirname_of_module_file "qiskit/test/mock/backends/london"
                  "fake_london.py" eq_refl)).
  - discriminate.
  - reflexivity.
Defined.

(** ** What [from_backend] receives *)

Section HandOver.
Context {D : Domain}.
Variable T : TargetAccessors outcome.

(** The target step returns the arguments whose options are [opts] when
    [opts] holds, field by field, what the step derives. *)
Lemma fill_from_target_intro (a : Args.t) (opts : PassManagerConfig) :
  derived_fields T a opts -> target opts = Args.target a ->
  passes_through a opts ->
  exists a', fill_from_target T a = Returns a' /\ pm_options a' = opts /\
             Args.backend a' = Args.backend a.
Proof.
  intros (F1 & F2 & F3 & F4 & F5 & F6) Ht
         (P1 & P2 & P3 & P4 & P5 & P6 & P7 & P8 & P9).
  unfold fill_from_target.
  destruct (Args.target a) as [t |] eqn:Hta; simpl in F1, F2, F3, F4, F5, F6.
  - rewrite (filled_if_none _ _ _ F1), (filled_if_none _ _ _ F2),
      (filled_if_none _ _ _ F3), (filled_if_none _ _ _ F4),
      (filled_if_none _ _ _ F5), (filled_if_none _ _ _ F6).
    simpl. eexists. split; [reflexivity |]. split; [| reflexivity].
    unfold pm_options. simpl.
    rewrite <- Ht, <- P1, <- P2, <- P3, <- P4, <- P5, <- P6, <- P7, <- P8, <- P9.
    destruct opts. reflexivity.
  - apply filled_unconsulted in F1, F2, F3, F4, F5, F6.
    exists a. split; [reflexivity |]. split; [| reflexivity].
    unfold pm_options.
    rewrite Hta, <- Ht, <- F1, <- F2, <- F3, <- F4, <- F5, <- F6,
      <- P1, <- P2, <- P3, <- P4, <- P5, <- P6, <- P7, <- P8, <- P9.
    destruct opts. reflexivity.
Qed.

End HandOver.

(** X10.  With a backend, the call resolves to [cfg] exactly when
    [from_backend] returns [cfg] on the backend and the options the target
    step produces: for each derivable parameter the value passed, or else
    what the accessor of the target returned, or else [None] without a
    target; the other options are those of the call.  So [from_backend]
    sees an override and a value derived from the target alike, as an
    option already set. *)
Theorem from_backend_receives {D : Domain} (T : TargetAccessors outcome)
  (from_backend : Backend -> PassManagerConfig -> outcome PassManagerConfig)
  (a : Args.t) (b : Backend) :
  Args.backend a = Some b ->
  forall cfg,
    resolve_config T from_backend a = Returns cfg <->
    exists opts,
      derived_fields T a opts /\ target opts = Args.target a /\
      passes_through a opts /\ from_backend b opts = Returns cfg.
Proof.
  intros Hb cfg. split.
  - intros H.
    destruct (resolve_config_hands_over T from_backend a Hb H)
      as (a' & Hsame & Hder & Hfb).
    exists (pm_options a'). split; [exact Hder |].
    split; [exact (proj1 (proj2 (proj2 Hsame))) |].
    split; [apply pm_options_passes_through; exact Hsame | exact Hfb].
  - intros (opts & Hd & Ht & Hp & Hfb).
    destruct (fill_from_target_intro Hd Ht Hp) as (a' & Hfill & Hopts & Hb').
    unfold resolve_config. rewrite Hfill. simpl.
    unfold build_config. rewrite Hb', Hb, Hopts. exact Hfb.
Qed.

Lemma from_backend_receives_witness :
  exists opts cfg,
    Sample.resolve (Sample.call_with_basis 1 (Some Sample.five_qubit_backend))
      = Returns cfg /\
    from_backend_model Sample.backend_accessors Sample.five_qubit_backend opts
      = Returns cfg /\
    basis_gates opts = Some ["u3"; "cx"] /\
    Returns (coupling_map opts) = Sample.connectivity Sample.five_qubit_target /\
    inst_map opts = None.
Proof.
  assert (Hres : exists cfg,
            Sample.resolve (Sample.call_with_basis 1 (Some Sample.five_qubit_backend))
              = Returns cfg) by (eexists; reflexivity).
  destruct Hres as (cfg & Hres).
  destruct (proj1 (@from_backend_receives Sample.domain Sample.accessors
              (from_backend_model Sample.backend_accessors)
              (Sample.call_with_basis 1 (Some Sample.five_qubit_backend))
              Sample.five_qubit_backend eq_refl cfg) Hres)
    as (opts & (F1 & F2 & _ & F4 & _) & _ & _ & Hfb).
  exists opts, cfg. split; [exact Hres |]. split; [exact Hfb |].
  simpl in F1, F2, F4.
  split; [exact F2 |]. split; [symmetry; exact F1 |].
  injection F4 as F4. symmetry. exact F4.
Defined.

(** ** A valid level does not make the call return *)

(** C5, what fails.  At a valid level the call need not return a pipeline:
    at level 3, a routing method asked for without any connectivity graph
    makes the builder raise, and at level 0 a routing method outside the
    enumeration does; the call ends with the builder's exception. *)
Lemma valid_level_dispatch_counterexample :
  In 3%Z [0; 1; 2; 3]%Z /\
  Sample.run (call_with_routing 3 "sabre")
    = Raises (Sample.UnresolvedRequirement "coupling_map") /\
  ~ (exists p, Sample.run (call_with_routing 3 "sabre") = Returns p) /\
  Sample.run (call_with_routing 0 "bogus")
    = Raises (Sample.UnsupportedMethod "routing_method" "bogus") /\
  ~ (exists p, Sample.run (call_with_routing 0 "bogus") = Returns p).
Proof.
  split; [simpl; tauto |].
  split; [reflexivity |].
  split; [intros (p & Hp); discriminate Hp |].
  split; [reflexivity |].
  intros (p & Hp). discriminate Hp.
Qed.

(** At level 3 the sample builder schedules when a calibration schedule map
    is available, here the one of the backend. *)
Example level_3_schedules_with_calibrations :
  Sample.run (Sample.call_with 3 (Some Sample.five_qubit_backend) None)
    = Returns ["layout"; "routing"; "translation";
               "optimization"; "optimization"; "optimization"; "scheduling"] /\
  Sample.run (Sample.call_with 2 (Some Sample.five_qubit_backend) None)
    = Returns ["layout"; "routing"; "translation"; "optimization"; "optimization"].
Proof. split; reflexivity. Qed.

(** ** The two classes of a mock device *)



